(** * Emerald Flower Shop API: a shallow embedding of [main.py]

    The handlers of [main.py] are embedded as functions in a small
    state-and-exception monad over a [world]: the process environment, the
    module-level store handle [db] and the trace of gateway calls.  Python
    dictionaries are finite maps from strings to [value]s, Python floats are
    IEEE-754 binary64 values ([spec_float]), exceptions carry their message. *)

From Stdlib Require Import ZArith NArith String Ascii List Lia.
From Stdlib Require Import Floats.SpecFloat.
From stdpp Require Import base option list gmap strings fin_maps pretty.

Local Open Scope string_scope.
Set Warnings "-register-all".

(** ** Python values *)

Module Py.

(** [float]: binary64. *)
Definition float : Type := spec_float.

Definition float_of_Z (z : Z) : float := binary_normalize 53 1024 z 0 false.

Definition float_zero : float := S754_zero false.

(** [a >= b] and [a < b] on floats; both are [False] when a NaN is involved. *)
Definition float_ge (a b : float) : bool := SFleb b a.
Definition float_lt (a b : float) : bool := SFltb a b.

(** A [str] is kept as its UTF-8 encoding: a character is a lead byte and
    the continuation bytes (10xxxxxx) that follow it. *)
Definition is_continuation (c : ascii) : bool :=
  match c with
  | Ascii _ _ _ _ _ _ false true => true
  | _ => false
  end.

(** [len(s)]: the number of characters. *)
Fixpoint char_length (s : string) : nat :=
  match s with
  | EmptyString => 0
  | String c rest =>
      if is_continuation c then char_length rest else S (char_length rest)
  end.

(** [s[:n]] on a [str]: its first [n] characters, each with all its
    bytes. *)
Fixpoint slice_to (n : nat) (s : string) : string :=
  match s with
  | EmptyString => EmptyString
  | String c rest =>
      if is_continuation c then String c (slice_to n rest)
      else match n with
           | O => EmptyString
           | S k => String c (slice_to k rest)
           end
  end.

(** Truthiness of the result of [os.getenv]: [None] and the empty text are falsy. *)
Definition truthy_str (o : option string) : bool :=
  match o with
  | Some (String _ _) => true
  | _ => false
  end.

Inductive value : Type :=
| VNone
| VBool (b : bool)
| VInt (z : Z)
| VFloat (f : float)
| VStr (s : string)
| VObjectId (o : N)
| VList (l : list value)
| VDict (d : gmap string value).

(** A [dict] with [str] keys. *)
Abbreviation dict := (gmap string value).

Definition float_eqb (a b : float) : bool :=
  match a, b with
  | S754_zero s, S754_zero t => Bool.eqb s t
  | S754_infinity s, S754_infinity t => Bool.eqb s t
  | S754_nan, S754_nan => true
  | S754_finite s m e, S754_finite t n f =>
      Bool.eqb s t && Pos.eqb m n && Z.eqb e f
  | _, _ => false
  end.

(** Structural equality of stored values, used by equality filters. *)
Fixpoint value_eqb (a b : value) {struct a} : bool :=
  match a, b with
  | VNone, VNone => true
  | VBool x, VBool y => Bool.eqb x y
  | VInt x, VInt y => Z.eqb x y
  | VFloat x, VFloat y => float_eqb x y
  | VStr x, VStr y => String.eqb x y
  | VObjectId x, VObjectId y => N.eqb x y
  | VList xs, VList ys =>
      (fix go (xs ys : list value) : bool :=
         match xs, ys with
         | [], [] => true
         | x :: xs', y :: ys' => value_eqb x y && go xs' ys'
         | _, _ => false
         end) xs ys
  | VDict d, VDict e =>
      Nat.eqb (size d) (size e)
      && map_fold (fun k v acc =>
                     acc && match e !! k with
                            | Some w => value_eqb v w
                            | None => false
                            end) true d
  | _, _ => false
  end.

(** A float that is neither an infinity nor a NaN. *)
Definition finite (f : float) : bool :=
  match f with
  | S754_zero _ | S754_finite _ _ _ => true
  | S754_infinity _ | S754_nan => false
  end.

(** Whether the framework can send a value as JSON: the encoder has no
    rule for the object id of the store, and the rendering
    ([allow_nan=False]) refuses an infinity or a NaN. *)
Fixpoint json_compliant (v : value) : bool :=
  match v with
  | VNone | VBool _ | VInt _ | VStr _ => true
  | VFloat f => finite f
  | VObjectId _ => false
  | VList l => forallb json_compliant l
  | VDict d => map_fold (fun _ x acc => acc && json_compliant x) true d
  end.

(** Exceptions.  [str(e)] of an [Exception(msg)] is [msg]; of Starlette's
    [HTTPException] it is the status code, a colon and the detail. *)
Inductive exn : Type :=
| Exception (msg : string)
| HTTPException (status_code : Z) (detail : string).

Definition str_exn (e : exn) : string :=
  match e with
  | Exception msg => msg
  | HTTPException c d => pretty c +:+ ": " +:+ d
  end.

End Py.
Export Py.

(** ** The document store and the world a request runs in *)

Module Store.

(** Operations of the storage engine that a gateway call reaches. *)
Inductive store_op : Type := OpListCollections | OpInsertOne | OpFind.

(** What reading the attribute [name] of the handle does: the attribute may
    be absent ([hasattr] is [False]), hold a value, or raise. *)
Inductive attribute : Type :=
| AttrAbsent
| AttrValue (v : value)
| AttrRaises (e : exn).

(** Modelled from the spec: the store handle [db] exported by the module
    [database], which is not part of the sources.  The spec treats the engine
    as a capability (list-collections, insert-one, find-many) over named
    collections of Documents, each Document carrying one store-assigned
    identifier that is never reused; a reachable store may still fail a
    specific call.  [faults op] is the message with which the engine fails
    the calls of kind [op], if it does. *)
Record database : Type := mk_database {
  name : attribute;
  faults : store_op -> option string;
  collections : gmap string (list dict);
  next_id : N;
}.

(** A call made to the gateway, as recorded in the trace. *)
Inductive gateway_call : Type :=
| CallInsert (collection_name : string) (record : dict)
| CallQuery (collection_name : string) (filter_dict : option dict)
    (limit : option Z).

(** The state a handler runs in: the process environment read by
    [os.getenv], the module-level handle [db] ([None] when the store was not
    configured at start-up), and the gateway calls made so far, oldest
    first. *)
Record world : Type := mk_world {
  environ : gmap string string;
  db : option database;
  calls : list gateway_call;
}.

Definition set_db (d : option database) (w : world) : world :=
  {| environ := environ w; db := d; calls := calls w |}.

Definition record_call (c : gateway_call) (w : world) : world :=
  {| environ := environ w; db := db w; calls := (calls w ++ [c])%list |}.

Definition getenv (key : string) (w : world) : option string :=
  environ w !! key.

(** The Documents of a collection; a collection that was never written to
    is empty. *)
Definition documents_of (coll : string) (d : database) : list dict :=
  default [] (collections d !! coll).

Definition list_collection_names (d : database) : exn + list string :=
  match faults d OpListCollections with
  | Some msg => inl (Exception msg)
  | None => inr (map fst (map_to_list (collections d)))
  end.

End Store.
Export Store.

(** ** Handlers: state and exceptions *)

Module Handler.

Inductive outcome (A : Type) : Type :=
| Returned (a : A)
| Raised (e : exn).
Arguments Returned {A} a.
Arguments Raised {A} e.

(** A computation over a mutable state [S]: it returns or raises, and in
    both cases leaves a state behind. *)
Definition St (S A : Type) : Type := S -> outcome A * S.

(** A computation that may call the gateway. *)
Abbreviation M := (St world).

Definition ret {S A} (a : A) : St S A := fun s => (Returned a, s).

Definition raise {S A} (e : exn) : St S A := fun s => (Raised e, s).

Definition bind {S A B} (m : St S A) (k : A -> St S B) : St S B :=
  fun s =>
    match m s with
    | (Returned a, s') => k a s'
    | (Raised e, s') => (Raised e, s')
    end.

(** [try: body except Exception as e: handler(e)] *)
Definition try_except {S A} (body : St S A) (handler : exn -> St S A)
    : St S A :=
  fun s =>
    match body s with
    | (Returned a, s') => (Returned a, s')
    | (Raised e, s') => handler e s'
    end.

(** [for x in xs: body(x)] *)
Fixpoint for_each {S A B} (xs : list A) (body : A -> St S B) : St S unit :=
  match xs with
  | [] => ret tt
  | x :: rest => bind (body x) (fun _ => for_each rest body)
  end.

(** The result of a call that does not touch the state. *)
Definition lift {S A} (r : exn + A) : St S A :=
  match r with
  | inl e => raise e
  | inr a => ret a
  end.

(** [d[key] = v] on the [dict] that is the state. *)
Definition set_item (key : string) (v : value) : St dict unit :=
  fun d => (Returned tt, <[key := v]> d).

End Handler.
Export Handler.

Notation "'let*' x ':=' m 'in' k" := (bind m (fun x => k))
  (at level 10, x name, m at level 100, k at level 200, only parsing).
Notation "m ';;' k" := (bind m (fun _ => k))
  (at level 100, k at level 200, right associativity, only parsing).

(** ** The gateway *)

Module Gateway.

Definition hex_digit (n : N) : ascii :=
  match n with
  | 0%N => "0" | 1%N => "1" | 2%N => "2" | 3%N => "3"
  | 4%N => "4" | 5%N => "5" | 6%N => "6" | 7%N => "7"
  | 8%N => "8" | 9%N => "9" | 10%N => "a" | 11%N => "b"
  | 12%N => "c" | 13%N => "d" | 14%N => "e" | _ => "f"
  end%char.

Fixpoint hex_fixed (width : nat) (n : N) (acc : string) : string :=
  match width with
  | O => acc
  | S k => hex_fixed k (N.div n 16) (String (hex_digit (N.modulo n 16)) acc)
  end.

(** Modelled from the spec: the canonical text form of a store identifier.
    The spec only says that the binary object id of the store is rendered as
    an opaque, non-empty text; the rendering here is the 24 hexadecimal
    digits of a 12-byte object id. *)
Definition oid_text (o : N) : string := hex_fixed 24 o EmptyString.

(** What the gateway accepts as a record: a [dict], stored as it is, or a
    validated model, stored as its dump. *)
Class BaseModel (A : Type) : Type := model_dump : A -> dict.

Class Insertable (A : Type) : Type := as_document : A -> dict.

#[export] Instance dict_insertable : Insertable dict := fun d => d.

#[export] Instance model_insertable {A} `{BaseModel A} : Insertable A :=
  fun a => model_dump a.

(** An equality filter matches a Document that has every filtered field with
    the filtered value; the empty filter matches every Document. *)
Definition matches (filter_dict : dict) (doc : dict) : bool :=
  forallb (fun kv => match doc !! fst kv with
                     | Some v => value_eqb (snd kv) v
                     | None => false
                     end) (map_to_list filter_dict).

Definition cap {A} (limit : option Z) (l : list A) : list A :=
  match limit with
  | None => l
  | Some n => take (Z.to_nat n) l
  end.

Definition store_unavailable : exn := Exception "Database not available".

(** Modelled from the spec: the insert-one of the engine.  The Document is
    the record under a new identifier, appended to its collection (created
    by the first insertion). *)
Definition insert_one (collection_name : string) (record : dict)
    (d : database) : database :=
  {| name := name d;
     faults := faults d;
     collections :=
       <[collection_name :=
           (documents_of collection_name d
              ++ [<["_id" := VObjectId (next_id d)]> record])%list]>
         (collections d);
     next_id := N.succ (next_id d) |}.

(** Modelled from the spec: [database.create_document], which is not part of
    the sources.  [insert(collection_name, record) -> identifier] serializes
    the record, performs a single insertion and returns the store-assigned
    identifier in its text form; the Document is the record plus that
    identifier.  It fails with StoreUnavailable when there is no store, and
    with the engine's error when the insertion fails. *)
Definition create_document {A} `{Insertable A}
    (collection_name : string) (data : A) : M string :=
  fun w =>
    let w := record_call (CallInsert collection_name (as_document data)) w in
    match db w with
    | None => (Raised store_unavailable, w)
    | Some d =>
        match faults d OpInsertOne with
        | Some msg => (Raised (Exception msg), w)
        | None =>
            (Returned (oid_text (next_id d)),
             set_db (Some (insert_one collection_name (as_document data) d)) w)
        end
    end.

(** Modelled from the spec: [database.get_documents], which is not part of
    the sources.  [query(collection_name, filter, limit?)] is a filtered
    read in insertion order; the filter is a mapping of field-equality
    constraints (absent or empty: everything matches); the limit caps the
    result count and an unset limit means unbounded.  The Documents come
    back with the identifier as the store keeps it: [list_products] does the
    conversion to text itself. *)
Definition get_documents (collection_name : string)
    (filter_dict : option dict) (limit : option Z) : M (list dict) :=
  fun w =>
    let w := record_call (CallQuery collection_name filter_dict limit) w in
    match db w with
    | None => (Raised store_unavailable, w)
    | Some d =>
        match faults d OpFind with
        | Some msg => (Raised (Exception msg), w)
        | None =>
            (Returned
               (cap limit
                  (List.filter (matches (default ∅ filter_dict))
                     (documents_of collection_name d))), w)
        end
    end.

End Gateway.
Export Gateway.

(** ** Request models

    A request body is what the framework hands to a model: every declared
    field is absent or carries a value of its declared type.  Validation
    checks that the required fields are there and that the [Field]
    constraints hold, fills in the defaults, and reports every offending
    field, each with the input that is at fault: the value that breaks a
    constraint, or the object that lacks a field. *)

Module Schema.

Inductive violation : Type :=
| Missing
| GreaterThanEqualInt (bound : Z)
| GreaterThanEqualFloat (bound : float).

Record validation_error : Type := mk_error {
  loc : list string;
  what : violation;
  input : value;
}.

Definition validation (A : Type) : Type := list validation_error + A.

(** Application that keeps the errors of both sides. *)
Definition ap {A B} (f : validation (A -> B)) (x : validation A)
    : validation B :=
  match f, x with
  | inr g, inr a => inr (g a)
  | inl es, inr _ => inl es
  | inr _, inl es => inl es
  | inl es, inl es' => inl (es ++ es')%list
  end.

Notation "f '<*>' x" := (ap f x) (at level 61, left associativity).

(** A field of an object as it was received, if it is there.  A field sent
    as [null] is not told apart from one that was not sent. *)
Definition present {A} (field : string) (f : A -> value) (o : option A)
    : list (string * value) :=
  match o with
  | Some a => [(field, f a)]
  | None => []
  end.

(** [name: T], in the object [enclosing]. *)
Definition required {A} (at_ : list string) (field : string)
    (enclosing : value) (o : option A) : validation A :=
  match o with
  | Some a => inr a
  | None => inl [mk_error (at_ ++ [field])%list Missing enclosing]
  end.

(** [name: Optional[T] = None] *)
Definition optional {A} (o : option A) : validation (option A) := inr o.

(** [name: T = d] *)
Definition with_default {A} (d : A) (o : option A) : validation A :=
  inr (default d o).

(** [name: float = Field(..., ge=bound)] *)
Definition float_field_ge (bound : float) (at_ : list string)
    (field : string) (enclosing : value) (o : option float)
    : validation float :=
  match o with
  | Some f =>
      if float_ge f bound then inr f
      else inl [mk_error (at_ ++ [field])%list (GreaterThanEqualFloat bound)
                  (VFloat f)]
  | None => inl [mk_error (at_ ++ [field])%list Missing enclosing]
  end.

(** [name: int = Field(..., ge=bound)] *)
Definition int_field_ge (bound : Z) (at_ : list string)
    (field : string) (enclosing : value) (o : option Z) : validation Z :=
  match o with
  | Some z =>
      if (bound <=? z)%Z then inr z
      else inl [mk_error (at_ ++ [field])%list (GreaterThanEqualInt bound)
                  (VInt z)]
  | None => inl [mk_error (at_ ++ [field])%list Missing enclosing]
  end.

(** A nested model. *)
Definition nested {B A} (validate : list string -> B -> validation A)
    (at_ : list string) (field : string) (enclosing : value) (o : option B)
    : validation A :=
  match o with
  | Some b => validate (at_ ++ [field])%list b
  | None => inl [mk_error (at_ ++ [field])%list Missing enclosing]
  end.

(** The elements of a [List[T]], from index [i] on. *)
Fixpoint each {B A} (validate : list string -> B -> validation A)
    (at_ : list string) (i : nat) (bs : list B) : validation (list A) :=
  match bs with
  | [] => inr []
  | b :: rest =>
      inr cons <*> validate (at_ ++ [pretty i])%list b
               <*> each validate at_ (S i) rest
  end.

Definition opt_value {A} (f : A -> value) (o : option A) : value :=
  match o with
  | Some a => f a
  | None => VNone
  end.

End Schema.
Export Schema.

Module ProductIn.

Record t : Type := mk {
  title : string;
  description : option string;
  price : float;
  category : string;
  in_stock : bool;
  image : option string;
}.

Record body : Type := mk_body {
  body_title : option string;
  body_description : option string;
  body_price : option float;
  body_category : option string;
  body_in_stock : option bool;
  body_image : option string;
}.

(** The body as it was received. *)
Definition echo (b : body) : value :=
  VDict (list_to_map
           (present "title" VStr (body_title b)
            ++ present "description" VStr (body_description b)
            ++ present "price" VFloat (body_price b)
            ++ present "category" VStr (body_category b)
            ++ present "in_stock" VBool (body_in_stock b)
            ++ present "image" VStr (body_image b))%list).

Definition validate (b : body) : validation t :=
  inr mk <*> required [] "title" (echo b) (body_title b)
         <*> optional (body_description b)
         <*> float_field_ge (float_of_Z 0) [] "price" (echo b) (body_price b)
         <*> required [] "category" (echo b) (body_category b)
         <*> with_default true (body_in_stock b)
         <*> optional (body_image b).

Definition dump (p : t) : dict :=
  list_to_map
    [("title", VStr (title p));
     ("description", opt_value VStr (description p));
     ("price", VFloat (price p));
     ("category", VStr (category p));
     ("in_stock", VBool (in_stock p));
     ("image", opt_value VStr (image p))].

#[global] Instance base_model : BaseModel t := dump.

End ProductIn.

Module OrderItem.

Record t : Type := mk {
  product_id : string;
  title : string;
  quantity : Z;
  price : float;
}.

Record body : Type := mk_body {
  body_product_id : option string;
  body_title : option string;
  body_quantity : option Z;
  body_price : option float;
}.

Definition echo (b : body) : value :=
  VDict (list_to_map
           (present "product_id" VStr (body_product_id b)
            ++ present "title" VStr (body_title b)
            ++ present "quantity" VInt (body_quantity b)
            ++ present "price" VFloat (body_price b))%list).

Definition validate (at_ : list string) (b : body) : validation t :=
  inr mk <*> required at_ "product_id" (echo b) (body_product_id b)
         <*> required at_ "title" (echo b) (body_title b)
         <*> int_field_ge 1 at_ "quantity" (echo b) (body_quantity b)
         <*> float_field_ge (float_of_Z 0) at_ "price" (echo b)
               (body_price b).

Definition dump (i : t) : dict :=
  list_to_map
    [("product_id", VStr (product_id i));
     ("title", VStr (title i));
     ("quantity", VInt (quantity i));
     ("price", VFloat (price i))].

#[global] Instance base_model : BaseModel t := dump.

End OrderItem.

Module CustomerInfo.

Record t : Type := mk {
  name : string;
  email : string;
}.

Record body : Type := mk_body {
  body_name : option string;
  body_email : option string;
}.

Definition echo (b : body) : value :=
  VDict (list_to_map
           (present "name" VStr (body_name b)
            ++ present "email" VStr (body_email b))%list).

Definition validate (at_ : list string) (b : body) : validation t :=
  inr mk <*> required at_ "name" (echo b) (body_name b)
         <*> required at_ "email" (echo b) (body_email b).

Definition dump (c : t) : dict :=
  list_to_map [("name", VStr (name c)); ("email", VStr (email c))].

#[global] Instance base_model : BaseModel t := dump.

End CustomerInfo.

Module OrderIn.

Record t : Type := mk {
  items : list OrderItem.t;
  total : float;
  customer : CustomerInfo.t;
  note : option string;
}.

Record body : Type := mk_body {
  body_items : option (list OrderItem.body);
  body_total : option float;
  body_customer : option CustomerInfo.body;
  body_note : option string;
}.

Definition echo (b : body) : value :=
  VDict (list_to_map
           (present "items" (fun bs => VList (map OrderItem.echo bs))
              (body_items b)
            ++ present "total" VFloat (body_total b)
            ++ present "customer" CustomerInfo.echo (body_customer b)
            ++ present "note" VStr (body_note b))%list).

Definition validate (b : body) : validation t :=
  inr mk <*> nested (fun at_ => each OrderItem.validate at_ 0) []
               "items" (echo b) (body_items b)
         <*> float_field_ge (float_of_Z 0) [] "total" (echo b) (body_total b)
         <*> nested CustomerInfo.validate [] "customer" (echo b)
               (body_customer b)
         <*> optional (body_note b).

(** [model_dump] turns the nested models into [dict]s as well. *)
Definition dump (o : t) : dict :=
  list_to_map
    [("items", VList (map (fun i => VDict (OrderItem.dump i)) (items o)));
     ("total", VFloat (total o));
     ("customer", VDict (CustomerInfo.dump (customer o)));
     ("note", opt_value VStr (note o))].

#[global] Instance base_model : BaseModel t := dump.

End OrderIn.

(** ** The handlers of [main.py] *)

Module App.

Definition sample (title description : string) (price : Z)
    (category image : string) : dict :=
  list_to_map
    [("title", VStr title);
     ("description", VStr description);
     ("price", VFloat (float_of_Z price));
     ("category", VStr category);
     ("in_stock", VBool true);
     ("image", VStr image)].

Definition samples : list dict :=
  [ sample "Emerald Roses"
      "A lush bouquet of deep green-tinted roses, perfect for elegant occasions."
      39 "bouquet" "/flowers/emerald-roses.jpg";
    sample "Mint Tulip Mix"
      "Soft tulips with a mint hue, bundled in recyclable wrap."
      29 "bouquet" "/flowers/mint-tulips.jpg";
    sample "Jade Succulent Set"
      "Three easy-care succulents in matte emerald pots."
      24 "plant" "/flowers/jade-succulents.jpg";
    sample "Forest Fern Basket"
      "A full-bodied fern in a handwoven basket."
      34 "plant" "/flowers/forest-fern.jpg" ].

Section Handlers.

(** The text Python gives for a float, a list or a dict; the handlers only
    ever pass it on. *)
Variable repr_of : value -> string.

(** [str(v)] *)
Definition py_str (v : value) : string :=
  match v with
  | VNone => "None"
  | VBool true => "True"
  | VBool false => "False"
  | VInt z => pretty z
  | VStr s => s
  | VObjectId o => oid_text o
  | VFloat _ | VList _ | VDict _ => repr_of v
  end.

(** [p["_id"] = str(p.get("_id"))] *)
Definition clean (p : dict) : dict :=
  <["_id" := VStr (py_str (default VNone (p !! "_id")))]> p.

Definition list_products (limit : option Z) : M dict :=
  try_except
    (let* products := get_documents "product" (Some ∅) limit in
     let* products :=
       match products with
       | [] =>
           for_each samples (fun s => create_document "product" s) ;;
           get_documents "product" None None
       | _ :: _ => ret products
       end in
     let cleaned := map clean products in
     ret {[ "items" := VList (map VDict cleaned) ]})
    (fun e => raise (HTTPException 500 (str_exn e))).

Definition create_product (data : ProductIn.t) : M dict :=
  try_except
    (let* _id := create_document "product" data in
     ret {[ "id" := VStr _id ]})
    (fun e => raise (HTTPException 500 (str_exn e))).

Definition create_order (order : OrderIn.t) : M dict :=
  try_except
    (let order_dict := model_dump order in
     let* order_id := create_document "order" order_dict in
     ret (<["id" := VStr order_id]> {[ "status" := VStr "received" ]}))
    (fun e => raise (HTTPException 500 (str_exn e))).

(** [hasattr(db, 'name')]: false when the attribute is absent; an error
    raised by the attribute itself goes through. *)
Definition hasattr_name {S} (d : database) : St S bool :=
  match name d with
  | AttrAbsent => ret false
  | AttrValue _ => ret true
  | AttrRaises e => raise e
  end.

(** [db.name] *)
Definition getattr_name {S} (d : database) : St S value :=
  match name d with
  | AttrAbsent => raise (Exception "'Database' object has no attribute 'name'")
  | AttrValue v => ret v
  | AttrRaises e => raise e
  end.

Definition set_flag (w : world) : string -> string :=
  fun key => if truthy_str (getenv key w) then "✅ Set" else "❌ Not Set".

Definition initial_response : dict :=
  list_to_map
    [("backend", VStr "✅ Running");
     ("database", VStr "❌ Not Available");
     ("database_url", VNone);
     ("database_name", VNone);
     ("connection_status", VStr "Not Connected");
     ("collections", VList [])].

(** The statements of [test_database], run on the local [response]. *)
Definition test_database_body (w : world) : St dict unit :=
  try_except
    (match db w with
     | Some d =>
         set_item "database" (VStr "✅ Available") ;;
         set_item "database_url" (VStr "✅ Configured") ;;
         (let* has := hasattr_name d in
          let* nm := if has then getattr_name d
                     else ret (VStr "✅ Connected") in
          set_item "database_name" nm) ;;
         set_item "connection_status" (VStr "Connected") ;;
         try_except
           (let* collections := lift (list_collection_names d) in
            set_item "collections" (VList (map VStr (take 10 collections))) ;;
            set_item "database" (VStr "✅ Connected & Working"))
           (fun e =>
              set_item "database"
                (VStr ("⚠️  Connected but Error: "
                       +:+ slice_to 50 (str_exn e))))
     | None =>
         set_item "database" (VStr "⚠️  Available but not initialized")
     end)
    (fun e =>
       set_item "database" (VStr ("❌ Error: " +:+ slice_to 50 (str_exn e)))) ;;
  set_item "database_url" (VStr (set_flag w "DATABASE_URL")) ;;
  set_item "database_name" (VStr (set_flag w "DATABASE_NAME")).

Definition test_database : M dict :=
  fun w =>
    match test_database_body w initial_response with
    | (Returned _, response) => (Returned response, w)
    | (Raised e, _) => (Raised e, w)
    end.

(** *** The routes

    The framework validates the body against the model the handler declares
    and calls the handler only with a validated model; an [HTTPException]
    becomes a response with its status code. *)

Inductive http_response : Type :=
| Ok (content : dict)
| Unprocessable (errors : list validation_error)
| Error (status_code : Z) (detail : string).

(** What the framework answers when it has nothing better to say. *)
Definition internal_server_error : http_response :=
  Error 500 "Internal Server Error".

(** The framework sends what the handler returns as JSON, and answers with
    a server error of its own when that cannot be encoded, or when an
    exception other than an [HTTPException] leaves the handler. *)
Definition respond (h : M dict) : world -> http_response * world :=
  fun w =>
    match h w with
    | (Returned content, w') =>
        if json_compliant (VDict content) then (Ok content, w')
        else (internal_server_error, w')
    | (Raised (HTTPException c d), w') => (Error c d, w')
    | (Raised (Exception _), w') => (internal_server_error, w')
    end.

(** The answer to a body that fails validation: the client error that
    lists the errors, each with its input; when one of these inputs cannot
    be sent as JSON, the framework fails to build that answer and falls back
    on its server error. *)
Definition reject (errors : list validation_error) : http_response :=
  if forallb (fun e => json_compliant (input e)) errors
  then Unprocessable errors
  else internal_server_error.

Definition route {B A} (validate : B -> validation A) (handler : A -> M dict)
    (b : B) : world -> http_response * world :=
  fun w =>
    match validate b with
    | inl errors => (reject errors, w)
    | inr model => respond (handler model) w
    end.

Definition get_api_products (limit : option Z) := respond (list_products limit).

Definition post_api_products := route ProductIn.validate create_product.

Definition post_api_orders := route OrderIn.validate create_order.

Definition get_test := respond test_database.

End Handlers.

End App.
Export App.

(** ** Vocabulary of the properties *)

Module Diagnostic.

(** The three conditions of the store that [/test] tells apart. *)
Inductive store_state : Type := Unavailable | Erroring | Working.

(** The condition the store is in when [/test] looks at it. *)
Definition store_state_of (w : world) : store_state :=
  match db w with
  | None => Unavailable
  | Some d =>
      match name d with
      | AttrRaises _ => Erroring
      | _ =>
          match faults d OpListCollections with
          | Some _ => Erroring
          | None => Working
          end
      end
  end.

Fixpoint starts_with (p s : string) : bool :=
  match p, s with
  | EmptyString, _ => true
  | String a p', String b s' => Ascii.eqb a b && starts_with p' s'
  | String _ _, EmptyString => false
  end.

(** What a reader of the response makes of its [database] field. *)
Definition read_state (field : option value) : option store_state :=
  match field with
  | Some (VStr s) =>
      if String.eqb s "⚠️  Available but not initialized" then Some Unavailable
      else if String.eqb s "✅ Connected & Working" then Some Working
      else if starts_with "⚠️  Connected but Error: " s then Some Erroring
      else if starts_with "❌ Error: " s then Some Erroring
      else None
  | _ => None
  end.

(** A store that is connected and fails to list its collections. *)
Definition timeout_message : string :=
  "localhost:27017: [Errno 111] Connection refused (configured timeouts: 30.0s)".

Definition unlistable_store : database :=
  {| name := AttrValue (VStr "shop");
     faults := fun op => match op with
                         | OpListCollections => Some timeout_message
                         | _ => None
                         end;
     collections := ∅;
     next_id := 0 |}.

Definition unlistable : world :=
  {| environ := {[ "DATABASE_URL" := "mongodb://localhost:27017" ]};
     db := Some unlistable_store;
     calls := [] |}.

End Diagnostic.
Export Diagnostic.

Module Listing.

(** The Documents that inserting [records] one after the other creates, when
    the next free identifier is [first]. *)
Fixpoint stamp (first : N) (records : list dict) : list dict :=
  match records with
  | [] => []
  | r :: rest => <["_id" := VObjectId first]> r :: stamp (N.succ first) rest
  end.

(** The body of a listing response that shows [docs]. *)
Definition items_of (repr_of : value -> string) (docs : list dict) : dict :=
  {[ "items" := VList (map VDict (map (clean repr_of) docs)) ]}.

(** A [repr] that shows nothing, for requests where no float, list or dict
    is turned into text. *)
Definition plain_repr : value -> string := fun _ => EmptyString.

(** A store without a store handle, and one that works and holds nothing. *)
Definition unconfigured : world :=
  {| environ := ∅; db := None; calls := [] |}.

Definition empty_store : database :=
  {| name := AttrValue (VStr "shop");
     faults := fun _ => None;
     collections := ∅;
     next_id := 0 |}.

Definition fresh_deployment : world :=
  {| environ := ∅; db := Some empty_store; calls := [] |}.

End Listing.
Export Listing.

Module Requests.

(** The request body that carries every field of a model. *)
Definition item_body (i : OrderItem.t) : OrderItem.body :=
  {| OrderItem.body_product_id := Some (OrderItem.product_id i);
     OrderItem.body_title := Some (OrderItem.title i);
     OrderItem.body_quantity := Some (OrderItem.quantity i);
     OrderItem.body_price := Some (OrderItem.price i) |}.

Definition customer_body (c : CustomerInfo.t) : CustomerInfo.body :=
  {| CustomerInfo.body_name := Some (CustomerInfo.name c);
     CustomerInfo.body_email := Some (CustomerInfo.email c) |}.

Definition order_body (o : OrderIn.t) : OrderIn.body :=
  {| OrderIn.body_items := Some (map item_body (OrderIn.items o));
     OrderIn.body_total := Some (OrderIn.total o);
     OrderIn.body_customer := Some (customer_body (OrderIn.customer o));
     OrderIn.body_note := OrderIn.note o |}.

(** The constraints of an item: [quantity >= 1] and [price >= 0]. *)
Definition item_in_range (i : OrderItem.t) : Prop :=
  (1 <= OrderItem.quantity i)%Z
  /\ float_ge (OrderItem.price i) (float_of_Z 0) = true.

(** Two roses at 39.0 each, and a total that is not their sum. *)
Definition roses_order : OrderIn.t :=
  {| OrderIn.items :=
       [ {| OrderItem.product_id := "p1";
            OrderItem.title := "Emerald Roses";
            OrderItem.quantity := 2;
            OrderItem.price := float_of_Z 39 |} ];
     OrderIn.total := float_of_Z 999;
     OrderIn.customer :=
       {| CustomerInfo.name := "A"; CustomerInfo.email := "a@example.com" |};
     OrderIn.note := None |}.

(** A product body whose title is the empty text. *)
Definition untitled : ProductIn.body :=
  {| ProductIn.body_title := Some EmptyString;
     ProductIn.body_description := None;
     ProductIn.body_price := Some (float_of_Z 5);
     ProductIn.body_category := Some "bouquet";
     ProductIn.body_in_stock := None;
     ProductIn.body_image := None |}.

Definition untitled_product : ProductIn.t :=
  {| ProductIn.title := EmptyString;
     ProductIn.description := None;
     ProductIn.price := float_of_Z 5;
     ProductIn.category := "bouquet";
     ProductIn.in_stock := true;
     ProductIn.image := None |}.

(** A product body whose price is plus infinity. *)
Definition priceless : ProductIn.body :=
  {| ProductIn.body_title := Some "Emerald Roses";
     ProductIn.body_description := None;
     ProductIn.body_price := Some (S754_infinity false);
     ProductIn.body_category := Some "bouquet";
     ProductIn.body_in_stock := None;
     ProductIn.body_image := None |}.

(** A product body without a title, and one with a negative price. *)
Definition no_title : ProductIn.body :=
  {| ProductIn.body_title := None;
     ProductIn.body_description := None;
     ProductIn.body_price := Some (float_of_Z 5);
     ProductIn.body_category := Some "bouquet";
     ProductIn.body_in_stock := None;
     ProductIn.body_image := None |}.


End Requests.
Export Requests.

Module Greetings.

(** The two handlers that only say that the backend is there. *)
Definition read_root : M dict :=
  ret {[ "message" := VStr "Emerald Flower Shop Backend is running" ]}.

Definition hello : M dict :=
  ret {[ "message" := VStr "Hello from the backend API!" ]}.

Definition get_root := respond read_root.

Definition get_api_hello := respond hello.

End Greetings.
Export Greetings.

Module Scenarios.

(** Whether [test_database] gets past reading the name of the handle. *)
Definition connected (w : world) : bool :=
  match db w with
  | Some d =>
      match name d with
      | AttrRaises _ => false
      | AttrAbsent | AttrValue _ => true
      end
  | None => false
  end.

(** What [db.list_collection_names()] has to say, when there is a handle. *)
Definition collection_names (w : world) : list string :=
  match db w with
  | Some d => map fst (map_to_list (collections d))
  | None => []
  end.

(** The message with which a gateway call that reaches the engine for [op]
    fails in [w], if it fails. *)
Definition failure_of (op : store_op) (w : world) : option string :=
  match db w with
  | None => Some (str_exn store_unavailable)
  | Some d => faults d op
  end.

(** The request body that carries every field of a product. *)
Definition product_body (p : ProductIn.t) : ProductIn.body :=
  {| ProductIn.body_title := Some (ProductIn.title p);
     ProductIn.body_description := ProductIn.description p;
     ProductIn.body_price := Some (ProductIn.price p);
     ProductIn.body_category := Some (ProductIn.category p);
     ProductIn.body_in_stock := Some (ProductIn.in_stock p);
     ProductIn.body_image := ProductIn.image p |}.

(** An item body that validation turns down for its quantity or price. *)
Definition item_out_of_range (ib : OrderItem.body) : Prop :=
  (exists q, OrderItem.body_quantity ib = Some q /\ (q < 1)%Z)
  \/ (exists f, OrderItem.body_price ib = Some f
                /\ float_lt f (float_of_Z 0) = true).

Definition store_op_eqb (a b : store_op) : bool :=
  match a, b with
  | OpListCollections, OpListCollections
  | OpInsertOne, OpInsertOne
  | OpFind, OpFind => true
  | _, _ => false
  end.

(** A store that holds nothing and fails the calls of one kind. *)
Definition failing_store (op : store_op) (msg : string) : database :=
  {| name := AttrValue (VStr "shop");
     faults := fun o => if store_op_eqb o op then Some msg else None;
     collections := ∅;
     next_id := 0 |}.

Definition failing (op : store_op) (msg : string) : world :=
  {| environ := ∅; db := Some (failing_store op msg); calls := [] |}.

(** A handle whose [name] raises. *)
Definition nameless : world :=
  {| environ := ∅;
     db := Some {| name := AttrRaises (Exception timeout_message);
                   faults := fun _ => None;
                   collections := ∅;
                   next_id := 0 |};
     calls := [] |}.

(** A store with twelve collections. *)
Definition crowded : world :=
  {| environ := ∅;
     db := Some {| name := AttrAbsent;
                   faults := fun _ => None;
                   collections :=
                     list_to_map
                       (map (fun c => (c, []))
                          ["a"; "b"; "c"; "d"; "e"; "f";
                           "g"; "h"; "i"; "j"; "k"; "l"]);
                   next_id := 0 |};
     calls := [] |}.

(** An order body with an item of quantity zero. *)
Definition empty_handed : OrderIn.body :=
  {| OrderIn.body_items :=
       Some [ {| OrderItem.body_product_id := Some "p1";
                 OrderItem.body_title := Some "Emerald Roses";
                 OrderItem.body_quantity := Some 0%Z;
                 OrderItem.body_price := Some (float_of_Z 39) |} ];
     OrderIn.body_total := Some (float_of_Z 0);
     OrderIn.body_customer :=
       Some {| CustomerInfo.body_name := Some "A";
               CustomerInfo.body_email := Some "a@example.com" |};
     OrderIn.body_note := None |}.

(** The Documents a collection holds in [w]; none without a store. *)
Definition stored (coll : string) (w : world) : list dict :=
  match db w with
  | Some d => documents_of coll d
  | None => []
  end.

(** From [w] to [w'] every collection kept its Documents, in their order,
    and only [coll] may have got new ones, at its end. *)
Definition grows_only_in (coll : string) (w w' : world) : Prop :=
  forall other,
    exists added,
      stored other w' = (stored other w ++ added)%list
      /\ (added = [] \/ other = coll).

(** A validation whose errors, if any, can all be sent with their input. *)
Definition echoes_ok {A} (v : validation A) : Prop :=
  match v with
  | inl es => forallb (fun e => json_compliant (input e)) es = true
  | inr _ => True
  end.

(** A validation that failed, with an error to show for it. *)
Definition rejected {A} (v : validation A) : Prop :=
  exists e es, v = inl (e :: es).


(** Whether the floats of an order body can be shown back in an error. *)
Definition item_can_be_echoed (ib : OrderItem.body) : bool :=
  match OrderItem.body_price ib with
  | Some f => finite f
  | None => true
  end.

Definition order_can_be_echoed (b : OrderIn.body) : bool :=
  match OrderIn.body_total b with
  | Some f => finite f
  | None => true
  end
  && match OrderIn.body_items b with
     | Some bs => forallb item_can_be_echoed bs
     | None => true
     end.


(** A Document that a listing can show: all of it but its identifier can
    be sent as JSON (the identifier is turned into a text first). *)
Definition sendable (p : dict) : Prop :=
  json_compliant (VDict (delete "_id" p)) = true.

(** A store that holds the four samples. *)
Definition stocked : world :=
  {| environ := ∅;
     db := Some {| name := AttrValue (VStr "shop");
                   faults := fun _ => None;
                   collections := {[ "product" := stamp 0 samples ]};
                   next_id := 4 |};
     calls := [] |}.

End Scenarios.
Export Scenarios.

(** ** Properties *)

(** *** What can be sent as JSON *)

Lemma json_compliant_dict (d : dict) :
  json_compliant (VDict d) = true
  <-> map_Forall (fun _ v => json_compliant v = true) d.
Proof.
  change (json_compliant (VDict d))
    with (map_fold (fun (_ : string) x acc => acc && json_compliant x) true d).
  apply (map_fold_weak_ind
           (fun r (m : dict) =>
              r = true <-> map_Forall (fun _ v => json_compliant v = true) m)).
  - split; [intros _; apply map_Forall_empty|reflexivity].
  - intros k v m r Hfresh IH.
    rewrite map_Forall_insert by exact Hfresh.
    rewrite andb_true_iff, IH. tauto.
Qed.

Lemma json_compliant_insert (k : string) (v : value) (d : dict) :
  json_compliant v = true ->
  json_compliant (VDict d) = true ->
  json_compliant (VDict (<[k := v]> d)) = true.
Proof.
  rewrite !json_compliant_dict. intros Hv Hd.
  apply map_Forall_insert_2; assumption.
Qed.

Lemma json_compliant_singleton (k : string) (v : value) :
  json_compliant (VDict {[ k := v ]}) = json_compliant v.
Proof.
  change (json_compliant (VDict {[ k := v ]}))
    with (map_fold (fun (_ : string) x acc => acc && json_compliant x) true
            ({[ k := v ]} : dict)).
  rewrite map_fold_singleton. reflexivity.
Qed.

Lemma json_compliant_texts (l : list string) :
  json_compliant (VList (map VStr l)) = true.
Proof. induction l as [|x l IH]; simpl; [reflexivity|exact IH]. Qed.

(** A response is sent as it is when it can be encoded. *)
Lemma respond_returned (h : M dict) (w w' : world) (content : dict) :
  h w = (Returned content, w') ->
  json_compliant (VDict content) = true ->
  respond h w = (Ok content, w').
Proof. intros Hrun Hjson. unfold respond. rewrite Hrun, Hjson. reflexivity. Qed.

(** Sending the response leaves the world as the handler left it. *)
Lemma respond_world (h : M dict) (w : world) :
  snd (respond h w) = snd (h w).
Proof.
  unfold respond.
  destruct (h w) as [[c|[msg|code detail]] w1];
    [destruct (json_compliant (VDict c))| |]; reflexivity.
Qed.

(** *** Slicing *)

Lemma length_slice_to (n : nat) (s : string) :
  char_length (slice_to n s) <= n.
Proof.
  revert n; induction s as [|c s IH]; intros n; simpl; [lia|].
  destruct (is_continuation c) eqn:Hc; simpl.
  - rewrite Hc. apply IH.
  - destruct n as [|n]; simpl; [lia|]. rewrite Hc. specialize (IH n). lia.
Qed.

Lemma slice_to_prefix (n : nat) (s : string) :
  exists rest, s = slice_to n s +:+ rest.
Proof.
  revert n; induction s as [|c s IH]; intros n; simpl.
  - exists EmptyString; reflexivity.
  - destruct (is_continuation c).
    + destruct (IH n) as [rest Hrest]. exists rest.
      change (String c s = String c (slice_to n s +:+ rest)). congruence.
    + destruct n as [|n]; [exists (String c s); reflexivity|].
      destruct (IH n) as [rest Hrest]. exists rest.
      change (String c s = String c (slice_to n s +:+ rest)). congruence.
Qed.

Lemma slice_to_short (n : nat) (s : string) :
  char_length s <= n -> slice_to n s = s.
Proof.
  revert n; induction s as [|c s IH]; intros n; simpl; [reflexivity|].
  destruct (is_continuation c); intros Hlen.
  - rewrite IH by exact Hlen. reflexivity.
  - destruct n as [|n]; [lia|]. rewrite IH by lia. reflexivity.
Qed.

Lemma length_append (s t : string) :
  String.length (s +:+ t) = String.length s + String.length t.
Proof.
  induction s as [|c s IH]; [reflexivity|].
  change (String.length (String c (s +:+ t)) = String.length (String c s) + String.length t).
  simpl; congruence.
Qed.

#[local] Arguments slice_to : simpl never.
#[local] Arguments float_of_Z : simpl never.

(** *** The diagnostic endpoint *)

Lemma read_state_listing_error (shown : string) :
  read_state (Some (VStr ("⚠️  Connected but Error: " +:+ shown)))
  = Some Erroring.
Proof. reflexivity. Qed.

Lemma read_state_other_error (shown : string) :
  read_state (Some (VStr ("❌ Error: " +:+ shown))) = Some Erroring.
Proof. reflexivity. Qed.

Section Diagnostics.

Implicit Types (w : world) (d : database).

(** Runs the statements of [test_database] symbolically: one goal per path
    through its two [try] blocks. *)
Ltac run_test_database w :=
  unfold test_database_body, bind, try_except, set_item, set_flag, getenv,
    store_state_of;
  destruct (db w) as [?d|]; simpl;
  [ unfold hasattr_name, getattr_name, bind, ret, raise, lift,
      list_collection_names;
    destruct (name d) as [|?v|?e]; simpl;
    destruct (faults d OpListCollections) as [?msg|]; simpl
  | ].

Lemma initial_response_compliant :
  json_compliant (VDict initial_response) = true.
Proof. vm_compute. reflexivity. Qed.

(** [test_database] gets to its [return], with a response that can be
    sent. *)
Lemma test_database_body_returns w :
  fst (test_database_body w initial_response) = Returned tt
  /\ json_compliant (VDict (snd (test_database_body w initial_response)))
     = true.
Proof.
  run_test_database w;
    (split; [reflexivity|];
     apply json_compliant_dict, map_Forall_lookup; intros k x Hk;
     repeat (rewrite lookup_insert in Hk; case_decide;
             [first [congruence
                    |injection Hk as <-;
                     first [reflexivity|apply json_compliant_texts]]|]);
     exact (proj1 (json_compliant_dict _) initial_response_compliant _ _ Hk)).
Qed.

Lemma get_test_returns w :
  get_test w = (Ok (snd (test_database_body w initial_response)), w).
Proof.
  destruct (test_database_body_returns w) as [Hret Hjson].
  apply respond_returned; [|exact Hjson].
  unfold test_database.
  destruct (test_database_body w initial_response) as [o r].
  simpl in Hret. rewrite Hret. reflexivity.
Qed.

Ltac read_field :=
  repeat first
    [ rewrite lookup_insert_eq
    | rewrite lookup_insert_ne by (intros ?; discriminate) ].

(** C10: in every response of [GET /test] the fields [database_url] and
    [database_name] are one of the two texts "✅ Set" and "❌ Not Set", chosen
    by the value [os.getenv] gives for [DATABASE_URL] and [DATABASE_NAME]
    alone (set, that is: present and not empty); nothing the connection
    checks wrote into these fields survives. *)
Theorem diagnostic_reports_environment_flags w :
  exists response,
    get_test w = (Ok response, w)
    /\ response !! "database_url"
       = Some (VStr (if truthy_str (environ w !! "DATABASE_URL")
                     then "✅ Set" else "❌ Not Set"))
    /\ response !! "database_name"
       = Some (VStr (if truthy_str (environ w !! "DATABASE_NAME")
                     then "✅ Set" else "❌ Not Set")).
Proof.
  exists (snd (test_database_body w initial_response)).
  split; [apply get_test_returns|].
  run_test_database w; (split; read_field; reflexivity).
Qed.

(** C7: [GET /test] never fails, and its [database] field tells the three
    conditions of the store apart: not initialized, connected with a failing
    call, connected and working. *)
Theorem diagnostic_never_fails_and_tells_states_apart w :
  exists response,
    get_test w = (Ok response, w)
    /\ read_state (response !! "database") = Some (store_state_of w).
Proof.
  exists (snd (test_database_body w initial_response)).
  split; [apply get_test_returns|].
  run_test_database w;
    (read_field;
     rewrite ?read_state_listing_error, ?read_state_other_error;
     reflexivity).
Qed.

(** C8: when listing the collections fails, the [database] field is the
    fixed text "⚠️  Connected but Error: " followed by the first 50 characters
    of the error message at most, so that its length is bounded. *)
Theorem listing_error_message_is_truncated w d msg :
  db w = Some d ->
  (forall e, name d <> AttrRaises e) ->
  faults d OpListCollections = Some msg ->
  exists response shown,
    get_test w = (Ok response, w)
    /\ response !! "database"
       = Some (VStr ("⚠️  Connected but Error: " +:+ shown))
    /\ shown = slice_to 50 msg
    /\ char_length shown <= 50
    /\ (exists rest, msg = shown +:+ rest)
    /\ (char_length msg <= 50 -> shown = msg).
Proof.
  intros Hdb Hname Hfault.
  exists (snd (test_database_body w initial_response)), (slice_to 50 msg).
  split; [|split; [|split; [reflexivity|split; [apply length_slice_to|
    split; [apply slice_to_prefix|apply slice_to_short]]]]].
  - apply get_test_returns.
  - unfold test_database_body, bind, try_except, set_item.
    rewrite Hdb; simpl.
    unfold hasattr_name, getattr_name, bind, ret, raise, lift,
      list_collection_names.
    rewrite Hfault.
    destruct (name d) as [|v|e] eqn:Hn; simpl; read_field; try reflexivity.
    exfalso; exact (Hname e eq_refl).
Qed.

End Diagnostics.

(** *** The gateway *)

Section GatewayRuns.

Implicit Types (w : world) (d : database).

Lemma matches_empty (doc : dict) : matches ∅ doc = true.
Proof. unfold matches. rewrite map_to_list_empty. reflexivity. Qed.

Lemma filter_matches_empty (docs : list dict) :
  List.filter (matches ∅) docs = docs.
Proof.
  induction docs as [|doc docs IH]; simpl; [reflexivity|].
  rewrite matches_empty, IH. reflexivity.
Qed.

(** An unfiltered query on a store that answers. *)
Lemma get_documents_all w d coll flt limit :
  db w = Some d -> faults d OpFind = None ->
  default ∅ flt = ∅ ->
  get_documents coll flt limit w
  = (Returned (cap limit (documents_of coll d)),
     record_call (CallQuery coll flt limit) w).
Proof.
  intros Hdb Hfind Hflt. unfold get_documents. simpl.
  rewrite Hdb, Hfind, Hflt, filter_matches_empty. reflexivity.
Qed.

(** An insertion into a store that answers. *)
Lemma create_document_dict w d coll (record : dict) :
  db w = Some d -> faults d OpInsertOne = None ->
  create_document coll record w
  = (Returned (oid_text (next_id d)),
     set_db (Some (insert_one coll record d))
       (record_call (CallInsert coll record) w)).
Proof.
  intros Hdb Hins. unfold create_document. simpl.
  rewrite Hdb, Hins. reflexivity.
Qed.

Lemma documents_of_insert_one coll record d :
  documents_of coll (insert_one coll record d)
  = (documents_of coll d ++ [<["_id" := VObjectId (next_id d)]> record])%list.
Proof. unfold documents_of at 1. simpl. rewrite lookup_insert_eq. reflexivity. Qed.

Lemma documents_of_insert_one_ne coll coll' record d :
  coll <> coll' ->
  documents_of coll' (insert_one coll record d) = documents_of coll' d.
Proof.
  intros Hne. unfold documents_of at 1. simpl.
  rewrite lookup_insert_ne by exact Hne. reflexivity.
Qed.

(** Inserting records one after the other, as the seeding loop does. *)
Lemma for_each_create_document w d coll (records : list dict) :
  db w = Some d -> faults d OpInsertOne = None ->
  exists d',
    for_each records (fun s => create_document coll s) w
    = (Returned tt,
       {| environ := environ w;
          db := Some d';
          calls := (calls w ++ map (CallInsert coll) records)%list |})
    /\ faults d' = faults d
    /\ name d' = name d
    /\ next_id d' = (next_id d + N.of_nat (length records))%N
    /\ documents_of coll d'
       = (documents_of coll d ++ stamp (next_id d) records)%list
    /\ (forall other, coll <> other ->
          documents_of other d' = documents_of other d).
Proof.
  revert w d. induction records as [|r rest IH]; intros w d Hdb Hins.
  - exists d. simpl. unfold ret. rewrite !app_nil_r, <- Hdb.
    destruct w; simpl. repeat split; try reflexivity. lia.
  - simpl. unfold bind. rewrite (create_document_dict w d) by assumption.
    destruct (IH (set_db (Some (insert_one coll r d))
                    (record_call (CallInsert coll r) w))
                 (insert_one coll r d) eq_refl Hins)
      as (d' & Hrun & Hf & Hn & Hid & Hdocs & Hother).
    exists d'. rewrite Hrun. simpl. rewrite <- app_assoc. simpl.
    repeat split; try assumption.
    + rewrite Hid. simpl. lia.
    + rewrite Hdocs, documents_of_insert_one, <- app_assoc. reflexivity.
    + intros other Hne. rewrite (Hother other Hne).
      apply documents_of_insert_one_ne; exact Hne.
Qed.

End GatewayRuns.

(** *** Listing and seeding products *)

Section Products.

Variable repr_of : value -> string.

Implicit Types (w : world) (d : database) (limit : option Z).

Lemma cap_nil {A} limit : cap limit (@nil A) = [].
Proof. destruct limit as [n|]; simpl; [apply take_nil|reflexivity]. Qed.

Lemma length_cap {A} (n : Z) (l : list A) :
  (Z.of_nat (length (cap (Some n) l)) <= Z.max 0 n)%Z.
Proof. simpl. rewrite length_take. lia. Qed.

(** A listing can be sent when every Document shown can, its identifier
    apart: that one is a text by then. *)
Lemma json_compliant_items (docs : list dict) :
  json_compliant (VDict (items_of repr_of docs))
  = forallb (fun p => json_compliant (VDict (clean repr_of p))) docs.
Proof.
  unfold items_of. rewrite json_compliant_singleton. simpl.
  induction docs as [|p docs IH]; simpl; [reflexivity|].
  rewrite <- IH. reflexivity.
Qed.

Lemma json_compliant_clean (p : dict) :
  json_compliant (VDict (delete "_id" p)) = true ->
  json_compliant (VDict (clean repr_of p)) = true.
Proof.
  intros Hrest. unfold clean. rewrite <- insert_delete_eq.
  apply json_compliant_insert; [reflexivity|exact Hrest].
Qed.

Lemma json_compliant_listing (docs : list dict) :
  Forall (fun p => json_compliant (VDict (delete "_id" p)) = true) docs ->
  json_compliant (VDict (items_of repr_of docs)) = true.
Proof.
  intros Hall. rewrite json_compliant_items. apply forallb_forall.
  intros p Hin. apply json_compliant_clean.
  rewrite Forall_forall in Hall. apply Hall, list_elem_of_In, Hin.
Qed.

Lemma Forall_cap {A} (P : A -> Prop) limit (l : list A) :
  Forall P l -> Forall P (cap limit l).
Proof.
  destruct limit as [n|]; simpl; [|trivial]. apply Forall_take.
Qed.

Lemma samples_compliant (first : N) :
  Forall (fun p => json_compliant (VDict (delete "_id" p)) = true)
    (stamp first samples).
Proof.
  simpl. repeat constructor;
    (rewrite delete_insert_eq, delete_id by reflexivity;
     vm_compute; reflexivity).
Qed.

Lemma seeded_items_compliant (first : N) limit :
  json_compliant (VDict (items_of repr_of (cap limit (stamp first samples))))
  = true.
Proof. apply json_compliant_listing, Forall_cap, samples_compliant. Qed.

(** The path of [list_products] through the seeding branch. *)
Lemma list_products_seeds limit w d :
  db w = Some d ->
  faults d OpFind = None -> faults d OpInsertOne = None ->
  cap limit (documents_of "product" d) = [] ->
  exists d',
    list_products repr_of limit w
    = (Returned (items_of repr_of
                   (documents_of "product" d ++ stamp (next_id d) samples)%list),
       {| environ := environ w;
          db := Some d';
          calls := (calls w
                    ++ CallQuery "product" (Some ∅) limit
                       :: map (CallInsert "product") samples
                    ++ [CallQuery "product" None None])%list |})
    /\ faults d' = faults d
    /\ documents_of "product" d'
       = (documents_of "product" d ++ stamp (next_id d) samples)%list.
Proof.
  intros Hdb Hfind Hins Hempty.
  unfold list_products, try_except, bind.
  rewrite (get_documents_all w d) by (assumption || reflexivity).
  rewrite Hempty.
  destruct (for_each_create_document
              (record_call (CallQuery "product" (Some ∅) limit) w) d
              "product" samples Hdb Hins)
    as (d' & Hrun & Hf & _ & _ & Hdocs & _).
  exists d'. rewrite Hrun.
  erewrite get_documents_all;
    [|reflexivity|rewrite Hf; exact Hfind|reflexivity].
  simpl. rewrite Hdocs. unfold ret, items_of, record_call. simpl.
  rewrite <- !app_assoc. simpl.
  repeat split; try assumption.
Qed.

(** The path of [list_products] past the seeding branch. *)
Lemma list_products_reads limit w d :
  db w = Some d -> faults d OpFind = None ->
  cap limit (documents_of "product" d) <> [] ->
  list_products repr_of limit w
  = (Returned (items_of repr_of (cap limit (documents_of "product" d))),
     record_call (CallQuery "product" (Some ∅) limit) w).
Proof.
  intros Hdb Hfind Hsome.
  unfold list_products, try_except, bind.
  rewrite (get_documents_all w d) by (assumption || reflexivity).
  destruct (cap limit (documents_of "product" d)) as [|p ps];
    [congruence|reflexivity].
Qed.

Lemma titles_of_stamp (first : N) :
  map (fun p : dict => p !! "title") (stamp first samples)
  = [Some (VStr "Emerald Roses"); Some (VStr "Mint Tulip Mix");
     Some (VStr "Jade Succulent Set"); Some (VStr "Forest Fern Basket")].
Proof.
  simpl. rewrite !lookup_insert_ne by (intros ?; discriminate). reflexivity.
Qed.

Lemma prices_of_stamp (first : N) :
  map (fun p : dict => p !! "price") (stamp first samples)
  = [Some (VFloat (float_of_Z 39)); Some (VFloat (float_of_Z 29));
     Some (VFloat (float_of_Z 24)); Some (VFloat (float_of_Z 34))].
Proof.
  simpl. rewrite !lookup_insert_ne by (intros ?; discriminate). reflexivity.
Qed.

Lemma stamp_strips (first : N) :
  map (delete "_id") (stamp first samples) = samples.
Proof.
  simpl. rewrite !delete_insert_eq.
  rewrite !delete_id by reflexivity. reflexivity.
Qed.

Lemma stamp_not_nil (first : N) : stamp first samples <> [].
Proof. discriminate. Qed.

Lemma get_documents_returned coll flt limit w (ps : list dict) w1 :
  get_documents coll flt limit w = (Returned ps, w1) ->
  default ∅ flt = ∅ ->
  exists d, db w1 = Some d /\ ps = cap limit (documents_of coll d).
Proof.
  unfold get_documents. simpl. intros Hrun Hflt.
  destruct (db w) as [d|] eqn:Hdb; [|discriminate].
  destruct (faults d OpFind); [discriminate|].
  injection Hrun as <- <-. exists d. simpl.
  rewrite Hflt, filter_matches_empty. split; [assumption|reflexivity].
Qed.

(** What [list_products] returns, when it returns. *)
Lemma list_products_returned limit w content w' :
  list_products repr_of limit w = (Returned content, w') ->
  exists d' lim,
    db w' = Some d'
    /\ content = items_of repr_of (cap lim (documents_of "product" d')).
Proof.
  unfold list_products, try_except, bind.
  destruct (get_documents "product" (Some ∅) limit w) as [[ps|e] w1] eqn:Hq1;
    [|discriminate].
  destruct ps as [|p ps].
  - destruct (for_each samples _ w1) as [[[]|e] w2]; [|discriminate].
    destruct (get_documents "product" None None w2) as [[ps'|e] w3] eqn:Hq2;
      [|discriminate].
    unfold ret. intros Hrun; injection Hrun as <- <-.
    destruct (get_documents_returned _ _ _ _ _ _ Hq2 eq_refl) as (d' & Hdb & ->).
    exists d', None. split; [assumption|reflexivity].
  - unfold ret. intros Hrun; injection Hrun as <- <-.
    destruct (get_documents_returned _ _ _ _ _ _ Hq1 eq_refl) as (d' & Hdb & Hps).
    exists d', limit. rewrite <- Hps. split; [assumption|reflexivity].
Qed.

(** C1: on a store that answers and holds no product, [GET /api/products]
    inserts the four samples, in their order (Emerald Roses 39.0, Mint Tulip
    Mix 29.0, Jade Succulent Set 24.0, Forest Fern Basket 34.0) and nothing
    else, and returns them: its item list is not empty. *)
Theorem first_listing_seeds_the_four_samples limit w d :
  db w = Some d ->
  faults d OpFind = None -> faults d OpInsertOne = None ->
  documents_of "product" d = [] ->
  exists w' d' inserted,
    get_api_products repr_of limit w = (Ok (items_of repr_of inserted), w')
    /\ inserted = stamp (next_id d) samples
    /\ length inserted = 4
    /\ db w' = Some d'
    /\ documents_of "product" d' = inserted
    /\ calls w'
       = (calls w
          ++ CallQuery "product" (Some ∅) limit
             :: map (CallInsert "product") samples
          ++ [CallQuery "product" None None])%list
    /\ map (delete "_id") inserted = samples
    /\ map (fun p : dict => p !! "title") inserted
       = [Some (VStr "Emerald Roses"); Some (VStr "Mint Tulip Mix");
          Some (VStr "Jade Succulent Set"); Some (VStr "Forest Fern Basket")]
    /\ map (fun p : dict => p !! "price") inserted
       = [Some (VFloat (float_of_Z 39)); Some (VFloat (float_of_Z 29));
          Some (VFloat (float_of_Z 24)); Some (VFloat (float_of_Z 34))].
Proof.
  intros Hdb Hfind Hins Hempty.
  destruct (list_products_seeds limit w d Hdb Hfind Hins) as (d' & Hrun & _ & Hdocs).
  { rewrite Hempty. apply cap_nil. }
  rewrite Hempty in Hrun, Hdocs. simpl in Hrun, Hdocs.
  eexists _, d', (stamp (next_id d) samples).
  split; [apply respond_returned;
          [exact Hrun|apply (seeded_items_compliant _ None)]|].
  split; [reflexivity|]. split; [reflexivity|]. split; [reflexivity|].
  split; [exact Hdocs|]. split; [reflexivity|].
  split; [apply stamp_strips|].
  split; [apply titles_of_stamp|apply prices_of_stamp].
Qed.

(** C2: a listing whose query finds products inserts nothing; so after a
    listing has seeded the empty collection, a second listing leaves the
    stored Documents as they are, every sample once, and returns them. *)
Theorem second_listing_does_not_seed_again limit1 limit2 w d :
  db w = Some d ->
  faults d OpFind = None -> faults d OpInsertOne = None ->
  documents_of "product" d = [] ->
  cap limit2 (stamp (next_id d) samples) <> [] ->
  exists w1 w2 d1,
    get_api_products repr_of limit1 w
    = (Ok (items_of repr_of (stamp (next_id d) samples)), w1)
    /\ db w1 = Some d1
    /\ documents_of "product" d1 = stamp (next_id d) samples
    /\ get_api_products repr_of limit2 w1
       = (Ok (items_of repr_of (cap limit2 (stamp (next_id d) samples))), w2)
    /\ db w2 = Some d1
    /\ calls w2 = (calls w1 ++ [CallQuery "product" (Some ∅) limit2])%list
    /\ map (fun p : dict => p !! "title") (documents_of "product" d1)
       = [Some (VStr "Emerald Roses"); Some (VStr "Mint Tulip Mix");
          Some (VStr "Jade Succulent Set"); Some (VStr "Forest Fern Basket")].
Proof.
  intros Hdb Hfind Hins Hempty Hsome.
  destruct (list_products_seeds limit1 w d Hdb Hfind Hins) as (d1 & Hrun & Hf & Hdocs).
  { rewrite Hempty. apply cap_nil. }
  rewrite Hempty in Hrun, Hdocs. simpl in Hrun, Hdocs.
  eexists _, _, d1.
  split; [apply respond_returned;
          [exact Hrun|apply (seeded_items_compliant _ None)]|].
  split; [reflexivity|]. split; [exact Hdocs|].
  split.
  - apply respond_returned; [|apply seeded_items_compliant].
    erewrite list_products_reads;
      [|reflexivity|rewrite Hf; exact Hfind|rewrite Hdocs; exact Hsome].
    rewrite Hdocs. reflexivity.
  - split; [reflexivity|]. split; [reflexivity|].
    rewrite Hdocs. apply titles_of_stamp.
Qed.

(** C9: every Document of a listing response has a text under ["_id"]: the
    text form of what the store keeps there. *)
Theorem listed_documents_have_text_identifiers limit w content w' :
  get_api_products repr_of limit w = (Ok content, w') ->
  exists d' lim docs,
    db w' = Some d'
    /\ docs = cap lim (documents_of "product" d')
    /\ content = {[ "items" := VList (map VDict (map (clean repr_of) docs)) ]}
    /\ Forall (fun p : dict => exists s, p !! "_id" = Some (VStr s))
         (map (clean repr_of) docs)
    /\ Forall (fun raw : dict =>
                 clean repr_of raw !! "_id"
                 = Some (VStr (py_str repr_of (default VNone (raw !! "_id"))))
                 /\ delete "_id" (clean repr_of raw) = delete "_id" raw)
         docs.
Proof.
  unfold get_api_products, respond.
  destruct (list_products repr_of limit w) as [[c|[msg|code detail]] w1] eqn:Hrun;
    [destruct (json_compliant (VDict c))| |]; intros Hok; try discriminate.
  injection Hok as <- <-.
  destruct (list_products_returned _ _ _ _ Hrun) as (d' & lim & Hdb & ->).
  exists d', lim, (cap lim (documents_of "product" d')).
  split; [assumption|]. split; [reflexivity|]. split; [reflexivity|].
  split.
  - apply List.Forall_map, Forall_forall. intros raw _.
    eexists. unfold clean. apply lookup_insert_eq.
  - apply Forall_forall. intros raw _. unfold clean. split.
    + apply lookup_insert_eq.
    + apply delete_insert_eq.
Qed.

End Products.

(** C3, at the request that fails it: for [GET /api/products?limit=2] on a
    store that holds nothing, the handler queries with the limit, seeds, and queries again
    without it: four items come back.  On the store as it is then, the same
    request returns two. *)
Theorem seeding_path_drops_the_limit :
  exists w' w'',
    get_api_products plain_repr (Some 2%Z) fresh_deployment
    = (Ok (items_of plain_repr (stamp 0 samples)), w')
    /\ length (stamp 0 samples) = 4
    /\ calls w'
       = (CallQuery "product" (Some ∅) (Some 2%Z)
          :: map (CallInsert "product") samples
          ++ [CallQuery "product" None None])%list
    /\ get_api_products plain_repr (Some 2%Z) w'
       = (Ok (items_of plain_repr (take 2 (stamp 0 samples))), w'').
Proof.
  destruct (list_products_seeds plain_repr (Some 2%Z) fresh_deployment empty_store
              eq_refl eq_refl eq_refl eq_refl) as (d' & Hrun & Hf & Hdocs).
  simpl in Hrun, Hdocs.
  eexists _, _.
  split; [apply respond_returned;
          [exact Hrun|apply (seeded_items_compliant _ _ None)]|].
  split; [reflexivity|]. split; [reflexivity|].
  apply respond_returned;
    [|apply (seeded_items_compliant _ _ (Some 2%Z))].
  erewrite list_products_reads;
    [|reflexivity|rewrite Hf; reflexivity|rewrite Hdocs; discriminate].
  rewrite Hdocs. reflexivity.
Qed.

(** *** Creating products *)

Section CreateProduct.

Implicit Types (w : world) (b : ProductIn.body).

Lemma float_of_Z_0 : float_of_Z 0 = S754_zero false.
Proof. reflexivity. Qed.

Lemma float_lt_zero_not_ge (f : float) :
  float_lt f (float_of_Z 0) = true -> float_ge f (float_of_Z 0) = false.
Proof.
  rewrite float_of_Z_0. unfold float_lt, float_ge, SFltb, SFleb.
  destruct f as [s|s| |s m e]; simpl; try destruct s; congruence.
Qed.

(** What a body that passes validation looks like. *)
Lemma validate_product_inr b (p : ProductIn.t) :
  ProductIn.validate b = inr p ->
  ProductIn.body_title b = Some (ProductIn.title p)
  /\ ProductIn.body_price b = Some (ProductIn.price p)
  /\ ProductIn.body_category b = Some (ProductIn.category p)
  /\ float_ge (ProductIn.price p) (float_of_Z 0) = true.
Proof.
  destruct b as [t de pr c i im]. unfold ProductIn.validate. simpl.
  destruct t as [t|], pr as [pr|], c as [c|]; simpl;
    try destruct (float_ge pr (float_of_Z 0)) eqn:Hge; simpl;
    try discriminate.
  intros Hp; injection Hp as <-. simpl. auto.
Qed.

(** The trace after [create_product]: one insertion, whatever the store
    does with it. *)
Lemma create_product_calls (p : ProductIn.t) w :
  calls (snd (create_product p w))
  = (calls w ++ [CallInsert "product" (ProductIn.dump p)])%list.
Proof.
  unfold create_product, try_except, bind, create_document. simpl.
  destruct (db w) as [d|]; [destruct (faults d OpInsertOne)|]; reflexivity.
Qed.


(** C5, as the code has it: a product that reaches the gateway went through
    validation, which asks for a title to be there and for a price of zero
    or more; the title stored is the text the caller sent, empty or not. *)
Theorem inserted_product_has_the_title_sent b w r w' :
  post_api_products b w = (r, w') ->
  calls w' <> calls w ->
  exists p,
    ProductIn.validate b = inr p
    /\ ProductIn.body_title b = Some (ProductIn.title p)
    /\ float_ge (ProductIn.price p) (float_of_Z 0) = true
    /\ calls w' = (calls w ++ [CallInsert "product" (ProductIn.dump p)])%list
    /\ ProductIn.dump p !! "title" = Some (VStr (ProductIn.title p)).
Proof.
  unfold post_api_products, route.
  destruct (ProductIn.validate b) as [errors|p] eqn:Hv.
  - intros Hrun; injection Hrun as <- <-. congruence.
  - intros Hrun _. exists p.
    destruct (validate_product_inr b p Hv) as (Ht & _ & _ & Hge).
    split; [reflexivity|]. split; [assumption|]. split; [assumption|].
    split; [|reflexivity].
    rewrite <- (create_product_calls p w), <- respond_world, Hrun.
    reflexivity.
Qed.

End CreateProduct.


(** A body with the empty text as its title passes validation, and the
    product is stored with that title. *)
Lemma empty_title_is_accepted_and_stored :
  ProductIn.validate untitled = inr untitled_product
  /\ ProductIn.title untitled_product = EmptyString
  /\ fst (post_api_products untitled fresh_deployment) = Ok {[ "id" := VStr (oid_text 0) ]}
  /\ (documents_of "product" <$> db (snd (post_api_products untitled fresh_deployment)))
     = Some [<["_id" := VObjectId 0]> (ProductIn.dump untitled_product)]
  /\ ProductIn.dump untitled_product !! "title" = Some (VStr EmptyString).
Proof. repeat split; vm_compute; reflexivity. Qed.

(** *** Submitting orders *)

Section CreateOrder.

Implicit Types (w : world) (d : database) (o : OrderIn.t).

Lemma length_hex_fixed (width : nat) (n : N) (acc : string) :
  String.length (hex_fixed width n acc) = width + String.length acc.
Proof.
  revert n acc; induction width as [|k IH]; intros n acc; simpl;
    [reflexivity|].
  rewrite IH. simpl. lia.
Qed.

Lemma oid_text_not_empty (o : N) : oid_text o <> EmptyString.
Proof.
  intros Hempty. pose proof (length_hex_fixed 24 o EmptyString) as Hlen.
  unfold oid_text in Hempty. rewrite Hempty in Hlen. discriminate.
Qed.

Lemma validate_item_body (at_ : list string) (i : OrderItem.t) :
  item_in_range i -> OrderItem.validate at_ (item_body i) = inr i.
Proof.
  intros [Hq Hp]. unfold OrderItem.validate, item_body. simpl.
  apply Z.leb_le in Hq. rewrite Hq, Hp. destruct i; reflexivity.
Qed.

Lemma validate_item_bodies (at_ : list string) (from : nat)
    (items : list OrderItem.t) :
  Forall item_in_range items ->
  each OrderItem.validate at_ from (map item_body items) = inr items.
Proof.
  intros Hall. revert from.
  induction Hall as [|i items Hi _ IH]; intros from; simpl; [reflexivity|].
  rewrite validate_item_body by exact Hi. rewrite IH. reflexivity.
Qed.

Lemma validate_order_body o :
  Forall item_in_range (OrderIn.items o) ->
  float_ge (OrderIn.total o) (float_of_Z 0) = true ->
  OrderIn.validate (order_body o) = inr o.
Proof.
  intros Hitems Htotal. unfold OrderIn.validate, order_body. simpl.
  rewrite validate_item_bodies by exact Hitems. rewrite Htotal.
  destruct o as [items total [name email] note]; reflexivity.
Qed.

(** C6: an order whose items all have a quantity of one or more and a price
    of zero or more, and whose total is zero or more, is accepted by
    [POST /api/orders] on a store that takes the insertion: the response has
    the status "received" and an identifier that is not empty, and the
    Document stored is the order as sent, its total included, whatever the
    items add up to. *)
Theorem valid_order_is_received_as_sent o w d :
  Forall item_in_range (OrderIn.items o) ->
  float_ge (OrderIn.total o) (float_of_Z 0) = true ->
  db w = Some d -> faults d OpInsertOne = None ->
  exists identifier w' d' stored,
    post_api_orders (order_body o) w
    = (Ok (<["id" := VStr identifier]> {[ "status" := VStr "received" ]}), w')
    /\ identifier <> EmptyString
    /\ db w' = Some d'
    /\ documents_of "order" d' = (documents_of "order" d ++ [stored])%list
    /\ delete "_id" stored = OrderIn.dump o
    /\ stored !! "total" = Some (VFloat (OrderIn.total o))
    /\ calls w' = (calls w ++ [CallInsert "order" (OrderIn.dump o)])%list.
Proof.
  intros Hitems Htotal Hdb Hins.
  unfold post_api_orders, route.
  rewrite validate_order_body by assumption.
  unfold respond, create_order, try_except, bind.
  change (model_dump o) with (OrderIn.dump o).
  rewrite (create_document_dict w d) by assumption.
  eexists _, _, _, (<["_id" := VObjectId (next_id d)]> (OrderIn.dump o)).
  split; [reflexivity|]. split; [apply oid_text_not_empty|].
  split; [reflexivity|]. split; [apply documents_of_insert_one|].
  split; [|split; [|reflexivity]].
  - rewrite delete_insert_eq. apply delete_id. reflexivity.
  - rewrite lookup_insert_ne by discriminate. reflexivity.
Qed.

End CreateOrder.

(** *** The properties at concrete requests *)

(** Without a store handle the listing and the order submission answer with
    a server error, and [/test] still answers. *)
Example listing_without_store :
  fst (get_api_products plain_repr None unconfigured)
  = Error 500 "Database not available".
Proof. reflexivity. Qed.

Example order_without_store :
  fst (post_api_orders (order_body roses_order) unconfigured)
  = Error 500 "Database not available".
Proof. reflexivity. Qed.

Example test_without_store :
  exists response,
    get_test unconfigured = (Ok response, unconfigured)
    /\ response !! "database"
       = Some (VStr "⚠️  Available but not initialized")
    /\ response !! "connection_status" = Some (VStr "Not Connected")
    /\ response !! "database_url" = Some (VStr "❌ Not Set").
Proof. eexists. repeat split; reflexivity. Qed.

Example test_with_unlistable_store :
  exists response,
    get_test unlistable = (Ok response, unlistable)
    /\ response !! "database"
       = Some (VStr ("⚠️  Connected but Error: "
                     +:+ "localhost:27017: [Errno 111] Connection refused (c"))
    /\ response !! "connection_status" = Some (VStr "Connected")
    /\ response !! "database_url" = Some (VStr "✅ Set")
    /\ response !! "database_name" = Some (VStr "❌ Not Set").
Proof. eexists. repeat split; reflexivity. Qed.

Example test_with_working_store :
  exists response,
    get_test fresh_deployment = (Ok response, fresh_deployment)
    /\ response !! "database" = Some (VStr "✅ Connected & Working")
    /\ response !! "collections" = Some (VList []).
Proof. eexists. repeat split; reflexivity. Qed.

(** A slice counts characters, not bytes: of 51 characters of two bytes
    each, the first 50 are kept whole. *)
Example slice_counts_characters :
  slice_to 50 "ééééééééééééééééééééééééééééééééééééééééééééééééééé"
  = "éééééééééééééééééééééééééééééééééééééééééééééééééé"
  /\ char_length "ééééééééééééééééééééééééééééééééééééééééééééééééééé" = 51
  /\ String.length (slice_to 50 "ééééééééééééééééééééééééééééééééééééééééééééééééééé") = 100.
Proof. repeat split; reflexivity. Qed.

Example slice_keeps_an_accent_whole :
  slice_to 3 "déjà vu" = "déj" /\ char_length "déjà vu" = 7.
Proof. split; reflexivity. Qed.

(** A product whose price is plus infinity passes validation and is stored;
    the listing that would show it cannot be sent. *)
Example infinite_price_breaks_the_listing :
  fst (post_api_products priceless fresh_deployment)
  = Ok {[ "id" := VStr (oid_text 0) ]}
  /\ fst (get_api_products plain_repr None
            (snd (post_api_products priceless fresh_deployment)))
     = Error 500 "Internal Server Error".
Proof. split; vm_compute; reflexivity. Qed.

(** A body without a title that holds a price of plus infinity: the error
    for the title shows the body, price included, and cannot be sent. *)
Example missing_title_beside_infinite_price :
  fst (post_api_products
         {| ProductIn.body_title := None;
            ProductIn.body_description := None;
            ProductIn.body_price := Some (S754_infinity false);
            ProductIn.body_category := Some "bouquet";
            ProductIn.body_in_stock := None;
            ProductIn.body_image := None |} fresh_deployment)
  = Error 500 "Internal Server Error".
Proof. vm_compute. reflexivity. Qed.

(** An equality filter keeps the Documents that have the field. *)
Example filter_by_category :
  map (fun p : dict => p !! "title")
    (List.filter (matches {[ "category" := VStr "plant" ]}) samples)
  = [Some (VStr "Jade Succulent Set"); Some (VStr "Forest Fern Basket")].
Proof. reflexivity. Qed.

(** Validation reports every offending field. *)
Example all_errors_are_reported :
  ProductIn.validate
    {| ProductIn.body_title := None;
       ProductIn.body_description := None;
       ProductIn.body_price := Some (float_of_Z (-1));
       ProductIn.body_category := None;
       ProductIn.body_in_stock := None;
       ProductIn.body_image := None |}
  = inl [ mk_error ["title"] Missing
            (VDict {[ "price" := VFloat (float_of_Z (-1)) ]});
          mk_error ["price"] (GreaterThanEqualFloat (float_of_Z 0))
            (VFloat (float_of_Z (-1)));
          mk_error ["category"] Missing
            (VDict {[ "price" := VFloat (float_of_Z (-1)) ]}) ].
Proof. reflexivity. Qed.

Lemma listing_error_message_is_truncated_witness :
  db unlistable = Some unlistable_store
  /\ faults unlistable_store OpListCollections = Some timeout_message
  /\ exists response shown,
       get_test unlistable = (Ok response, unlistable)
       /\ response !! "database"
          = Some (VStr ("⚠️  Connected but Error: " +:+ shown))
       /\ shown = slice_to 50 timeout_message
       /\ char_length shown <= 50
       /\ (exists rest, timeout_message = shown +:+ rest)
       /\ (char_length timeout_message <= 50 -> shown = timeout_message).
Proof.
  split; [reflexivity|]. split; [reflexivity|].
  apply (listing_error_message_is_truncated unlistable unlistable_store
           timeout_message); [reflexivity| |reflexivity].
  intros e He. discriminate He.
Defined.

Lemma first_listing_seeds_the_four_samples_witness :
  documents_of "product" empty_store = []
  /\ exists w' d' inserted,
       get_api_products plain_repr None fresh_deployment
       = (Ok (items_of plain_repr inserted), w')
       /\ inserted = stamp 0 samples
       /\ length inserted = 4
       /\ db w' = Some d'
       /\ documents_of "product" d' = inserted
       /\ calls w'
          = (CallQuery "product" (Some ∅) None
             :: map (CallInsert "product") samples
             ++ [CallQuery "product" None None])%list
       /\ map (delete "_id") inserted = samples
       /\ map (fun p : dict => p !! "title") inserted
          = [Some (VStr "Emerald Roses"); Some (VStr "Mint Tulip Mix");
             Some (VStr "Jade Succulent Set");
             Some (VStr "Forest Fern Basket")]
       /\ map (fun p : dict => p !! "price") inserted
          = [Some (VFloat (float_of_Z 39)); Some (VFloat (float_of_Z 29));
             Some (VFloat (float_of_Z 24)); Some (VFloat (float_of_Z 34))].
Proof.
  split; [reflexivity|].
  exact (first_listing_seeds_the_four_samples plain_repr None fresh_deployment
           empty_store eq_refl eq_refl eq_refl eq_refl).
Defined.

Lemma second_listing_does_not_seed_again_witness :
  cap None (stamp 0 samples) <> []
  /\ exists w1 w2 d1,
       get_api_products plain_repr (Some 2%Z) fresh_deployment
       = (Ok (items_of plain_repr (stamp 0 samples)), w1)
       /\ db w1 = Some d1
       /\ documents_of "product" d1 = stamp 0 samples
       /\ get_api_products plain_repr None w1
          = (Ok (items_of plain_repr (cap None (stamp 0 samples))), w2)
       /\ db w2 = Some d1
       /\ calls w2 = (calls w1 ++ [CallQuery "product" (Some ∅) None])%list
       /\ map (fun p : dict => p !! "title") (documents_of "product" d1)
          = [Some (VStr "Emerald Roses"); Some (VStr "Mint Tulip Mix");
             Some (VStr "Jade Succulent Set");
             Some (VStr "Forest Fern Basket")].
Proof.
  assert (cap None (stamp 0 samples) <> []) as Hsome by discriminate.
  split; [exact Hsome|].
  exact (second_listing_does_not_seed_again plain_repr (Some 2%Z) None
           fresh_deployment empty_store eq_refl eq_refl eq_refl eq_refl Hsome).
Defined.

Lemma listed_documents_have_text_identifiers_witness :
  get_api_products plain_repr None fresh_deployment
  = (Ok (items_of plain_repr (stamp 0 samples)),
     snd (get_api_products plain_repr None fresh_deployment))
  /\ exists d' lim docs,
       db (snd (get_api_products plain_repr None fresh_deployment)) = Some d'
       /\ docs = cap lim (documents_of "product" d')
       /\ items_of plain_repr (stamp 0 samples)
          = {[ "items" := VList (map VDict (map (clean plain_repr) docs)) ]}
       /\ Forall (fun p : dict => exists s, p !! "_id" = Some (VStr s))
            (map (clean plain_repr) docs)
       /\ Forall (fun raw : dict =>
                    clean plain_repr raw !! "_id"
                    = Some (VStr (py_str plain_repr
                                    (default VNone (raw !! "_id"))))
                    /\ delete "_id" (clean plain_repr raw)
                       = delete "_id" raw)
            docs.
Proof.
  assert (get_api_products plain_repr None fresh_deployment
          = (Ok (items_of plain_repr (stamp 0 samples)),
             snd (get_api_products plain_repr None fresh_deployment))) as Hrun
    by (vm_compute; reflexivity).
  split; [exact Hrun|].
  exact (listed_documents_have_text_identifiers plain_repr None fresh_deployment
           _ _ Hrun).
Defined.


Lemma inserted_product_has_the_title_sent_witness :
  calls (snd (post_api_products untitled fresh_deployment)) <> calls fresh_deployment
  /\ exists p,
       ProductIn.validate untitled = inr p
       /\ ProductIn.body_title untitled = Some (ProductIn.title p)
       /\ float_ge (ProductIn.price p) (float_of_Z 0) = true
       /\ calls (snd (post_api_products untitled fresh_deployment))
          = (calls fresh_deployment ++ [CallInsert "product" (ProductIn.dump p)])%list
       /\ ProductIn.dump p !! "title" = Some (VStr (ProductIn.title p)).
Proof.
  assert (calls (snd (post_api_products untitled fresh_deployment)) <> calls fresh_deployment)
    as Hcalled by (vm_compute; discriminate).
  split; [exact Hcalled|].
  apply (inserted_product_has_the_title_sent untitled fresh_deployment
           (fst (post_api_products untitled fresh_deployment))
           (snd (post_api_products untitled fresh_deployment)));
    [apply surjective_pairing|exact Hcalled].
Defined.

Lemma valid_order_is_received_as_sent_witness :
  Forall item_in_range (OrderIn.items roses_order)
  /\ float_ge (OrderIn.total roses_order) (float_of_Z 0) = true
  /\ exists identifier w' d' stored,
       post_api_orders (order_body roses_order) fresh_deployment
       = (Ok (<["id" := VStr identifier]> {[ "status" := VStr "received" ]}),
          w')
       /\ identifier <> EmptyString
       /\ db w' = Some d'
       /\ documents_of "order" d'
          = (documents_of "order" empty_store ++ [stored])%list
       /\ delete "_id" stored = OrderIn.dump roses_order
       /\ stored !! "total" = Some (VFloat (float_of_Z 999))
       /\ calls w'
          = (calls fresh_deployment ++ [CallInsert "order" (OrderIn.dump roses_order)])%list.
Proof.
  assert (Forall item_in_range (OrderIn.items roses_order)) as Hitems.
  { constructor; [split; [discriminate|reflexivity]|constructor]. }
  split; [exact Hitems|]. split; [reflexivity|].
  exact (valid_order_is_received_as_sent roses_order fresh_deployment empty_store
           Hitems eq_refl eq_refl eq_refl).
Defined.

(** ** Further properties of the handlers *)

(** *** The diagnostic endpoint, field by field *)

Section DiagnosticFields.

Implicit Types (w : world) (d : database).

Ltac walk_test_database w :=
  unfold test_database_body, bind,
    try_except, set_item, set_flag, getenv, store_state_of, connected,
    collection_names;
  destruct (db w) as [?d|]; simpl;
  [ unfold hasattr_name, getattr_name, bind, ret, raise, lift,
      list_collection_names;
    destruct (name d) as [|?v|?e]; simpl;
    destruct (faults d OpListCollections) as [?msg|]; simpl
  | ].

Ltac look_up :=
  repeat first
    [ rewrite lookup_insert_eq
    | rewrite lookup_insert_ne by (intros ?; discriminate) ].

(** X1: the [collections] field of [/test] holds the first ten collection
    names when the listing succeeds, and stays empty in every other case. *)
Theorem diagnostic_lists_at_most_ten_collections w :
  exists response shown,
    get_test w = (Ok response, w)
    /\ response !! "collections" = Some (VList (map VStr shown))
    /\ shown = match store_state_of w with
               | Working => take 10 (collection_names w)
               | Unavailable | Erroring => []
               end
    /\ length shown <= 10.
Proof.
  exists (snd (test_database_body w initial_response)).
  exists (match store_state_of w with
          | Working => take 10 (collection_names w)
          | Unavailable | Erroring => []
          end).
  split; [apply get_test_returns|].
  walk_test_database w;
    (split; [|split; [reflexivity|]];
     [look_up; reflexivity
     |first [apply Nat.le_0_l|rewrite length_take; lia]]).
Qed.

(** X2: [connection_status] is "Connected" exactly when there is a handle
    whose name can be read, whatever the listing does afterwards, and
    [backend] always reads "✅ Running". *)
Theorem diagnostic_connection_status w :
  exists response,
    get_test w = (Ok response, w)
    /\ response !! "connection_status"
       = Some (VStr (if connected w then "Connected" else "Not Connected"))
    /\ response !! "backend" = Some (VStr "✅ Running").
Proof.
  exists (snd (test_database_body w initial_response)).
  split; [apply get_test_returns|].
  walk_test_database w; (split; look_up; reflexivity).
Qed.

(** X3: when reading the name of the handle raises, the outer handler of
    [test_database] takes over: [database] is "❌ Error: " followed by the
    first 50 characters of the message, the listing is not shown and the
    status stays "Not Connected". *)
Theorem diagnostic_name_error_is_folded w d e :
  db w = Some d ->
  name d = AttrRaises e ->
  exists response,
    get_test w = (Ok response, w)
    /\ response !! "database"
       = Some (VStr ("❌ Error: " +:+ slice_to 50 (str_exn e)))
    /\ response !! "connection_status" = Some (VStr "Not Connected")
    /\ response !! "collections" = Some (VList []).
Proof.
  intros Hdb Hname.
  exists (snd (test_database_body w initial_response)).
  split; [apply get_test_returns|].
  unfold test_database_body, bind, try_except, set_item.
  rewrite Hdb. simpl. unfold hasattr_name, bind, raise. rewrite Hname. simpl.
  repeat split; look_up; reflexivity.
Qed.

End DiagnosticFields.

Lemma diagnostic_name_error_is_folded_witness :
  exists response,
    get_test nameless = (Ok response, nameless)
    /\ response !! "database"
       = Some (VStr ("❌ Error: "
                     +:+ slice_to 50 (str_exn (Exception timeout_message))))
    /\ response !! "connection_status" = Some (VStr "Not Connected")
    /\ response !! "collections" = Some (VList []).
Proof.
  exact (diagnostic_name_error_is_folded nameless _
           (Exception timeout_message) eq_refl eq_refl).
Defined.

Example crowded_store_shows_ten :
  exists response names,
    get_test crowded = (Ok response, crowded)
    /\ response !! "collections" = Some (VList (map VStr names))
    /\ length names = 10
    /\ length (collection_names crowded) = 12.
Proof. eexists _, _. repeat split; vm_compute; reflexivity. Qed.

(** *** What the handlers do to the store *)

Section StoreEffects.

Variable repr_of : value -> string.

Implicit Types (w : world) (d : database) (limit : option Z).

Lemma grows_only_in_refl coll w : grows_only_in coll w w.
Proof. intros other. exists []. rewrite app_nil_r. auto. Qed.

Lemma grows_only_in_trans coll w1 w2 w3 :
  grows_only_in coll w1 w2 -> grows_only_in coll w2 w3 ->
  grows_only_in coll w1 w3.
Proof.
  intros H12 H23 other.
  destruct (H12 other) as (a1 & E1 & C1), (H23 other) as (a2 & E2 & C2).
  exists (a1 ++ a2)%list. rewrite E2, E1, app_assoc. split; [reflexivity|].
  destruct C1 as [->|C1]; [destruct C2 as [->|C2]|]; auto.
Qed.

Lemma get_documents_world coll flt limit w :
  snd (get_documents coll flt limit w) = record_call (CallQuery coll flt limit) w.
Proof.
  unfold get_documents. simpl.
  destruct (db w) as [d|]; [destruct (faults d OpFind)|]; reflexivity.
Qed.

Lemma record_call_grows coll c w : grows_only_in coll w (record_call c w).
Proof. intros other. exists []. rewrite app_nil_r. auto. Qed.

Lemma create_document_grows coll (record : dict) w :
  grows_only_in coll w (snd (create_document coll record w)).
Proof.
  unfold create_document. simpl.
  destruct (db w) as [d|] eqn:Hdb;
    [destruct (faults d OpInsertOne)|]; simpl;
    try solve [intros other; exists []; unfold stored; simpl; rewrite Hdb;
               rewrite app_nil_r; auto].
  intros other. unfold stored. simpl. rewrite Hdb.
  destruct (decide (coll = other)) as [<-|Hne].
  - eexists. rewrite documents_of_insert_one. split; [reflexivity|auto].
  - exists []. rewrite app_nil_r.
    rewrite documents_of_insert_one_ne by exact Hne. auto.
Qed.

Lemma for_each_create_document_grows coll (records : list dict) w :
  grows_only_in coll w
    (snd (for_each records (fun s => create_document coll s) w)).
Proof.
  revert w. induction records as [|r rest IH]; intros w; simpl.
  - apply grows_only_in_refl.
  - unfold bind.
    pose proof (create_document_grows coll r w) as Hfirst.
    destruct (create_document coll r w) as [[id|e] w1]; simpl in *.
    + eapply grows_only_in_trans; [exact Hfirst|apply IH].
    + exact Hfirst.
Qed.

(** X4: [list_products] changes nothing but the product collection, and
    that only by appending: every Document stored before the request is
    still there afterwards, in its place, whether the request succeeds or
    fails. *)
Theorem listing_only_appends_products limit w :
  grows_only_in "product" w (snd (get_api_products repr_of limit w)).
Proof.
  assert (snd (get_api_products repr_of limit w)
          = snd (list_products repr_of limit w)) as ->.
  { apply respond_world. }
  unfold list_products, try_except, bind.
  pose proof (get_documents_world "product" (Some ∅) limit w) as Hq1.
  destruct (get_documents "product" (Some ∅) limit w) as [[ps|e] w1];
    simpl in Hq1; subst w1; [|apply record_call_grows].
  destruct ps as [|p ps]; [|apply record_call_grows].
  pose proof (for_each_create_document_grows "product" samples
                (record_call (CallQuery "product" (Some ∅) limit) w)) as Hseed.
  destruct (for_each samples _ _) as [[[]|e] w2]; simpl in Hseed.
  - pose proof (get_documents_world "product" None None w2) as Hq2.
    destruct (get_documents "product" None None w2) as [[ps|e] w3];
      simpl in Hq2; subst w3; simpl;
      (eapply grows_only_in_trans; [apply record_call_grows|]);
      (eapply grows_only_in_trans; [exact Hseed|apply record_call_grows]).
  - simpl. eapply grows_only_in_trans; [apply record_call_grows|exact Hseed].
Qed.

(** X5: [POST /api/products] appends to the product collection only and
    [POST /api/orders] to the order collection only, whatever the body and
    the state of the store. *)
Theorem posting_only_appends_to_its_collection
    (pb : ProductIn.body) (ob : OrderIn.body) w :
  grows_only_in "product" w (snd (post_api_products pb w))
  /\ grows_only_in "order" w (snd (post_api_orders ob w)).
Proof.
  split.
  - unfold post_api_products, route.
    destruct (ProductIn.validate pb) as [errors|p];
      [apply grows_only_in_refl|].
    unfold respond, create_product, try_except, bind.
    pose proof (create_document_grows "product" (ProductIn.dump p) w) as H.
    change (@create_document ProductIn.t _ "product" p w)
      with (create_document "product" (ProductIn.dump p) w).
    destruct (create_document "product" (ProductIn.dump p) w)
      as [[id|[msg|code detail]] w1]; exact H.
  - unfold post_api_orders, route.
    destruct (OrderIn.validate ob) as [errors|o];
      [apply grows_only_in_refl|].
    unfold respond, create_order, try_except, bind.
    change (model_dump o) with (OrderIn.dump o).
    pose proof (create_document_grows "order" (OrderIn.dump o) w) as H.
    destruct (create_document "order" (OrderIn.dump o) w)
      as [[id|[msg|code detail]] w1]; exact H.
Qed.

End StoreEffects.

(** *** Failures and the paths around seeding *)

Section ListingPaths.

Variable repr_of : value -> string.

Implicit Types (w : world) (d : database) (limit : option Z).

(** A gateway call that fails: the world only gets the call recorded. *)
Lemma get_documents_fails coll flt limit w msg :
  failure_of OpFind w = Some msg ->
  get_documents coll flt limit w
  = (Raised (Exception msg), record_call (CallQuery coll flt limit) w).
Proof.
  unfold failure_of, get_documents. simpl.
  destruct (db w) as [d|].
  - intros ->. reflexivity.
  - intros Hmsg; injection Hmsg as <-. reflexivity.
Qed.

Lemma create_document_fails coll (record : dict) w msg :
  failure_of OpInsertOne w = Some msg ->
  create_document coll record w
  = (Raised (Exception msg), record_call (CallInsert coll record) w).
Proof.
  unfold failure_of, create_document. simpl.
  destruct (db w) as [d|].
  - intros ->. reflexivity.
  - intros Hmsg; injection Hmsg as <-. reflexivity.
Qed.

(** X6: when the query of [list_products] fails, for want of a store or in
    the engine, the answer is a 500 whose detail is the message of the
    error; the handler made that one call and did not try to seed. *)
Theorem failed_query_is_a_server_error limit w msg :
  failure_of OpFind w = Some msg ->
  get_api_products repr_of limit w
  = (Error 500 msg, record_call (CallQuery "product" (Some ∅) limit) w).
Proof.
  intros Hfail. unfold get_api_products, respond, list_products, try_except,
    bind.
  rewrite (get_documents_fails _ _ _ _ _ Hfail). reflexivity.
Qed.

(** X7: when the collection is empty and the store refuses insertions, the
    seeding loop stops at its first sample: the answer is a 500 with the
    message of the engine, the other samples are not tried, there is no
    second query and the store holds what it held. *)
Theorem failed_seeding_is_a_server_error limit w d msg :
  db w = Some d ->
  faults d OpFind = None ->
  faults d OpInsertOne = Some msg ->
  cap limit (documents_of "product" d) = [] ->
  exists first rest w',
    samples = first :: rest
    /\ get_api_products repr_of limit w = (Error 500 msg, w')
    /\ db w' = db w
    /\ calls w'
       = (calls w ++ [CallQuery "product" (Some ∅) limit;
                      CallInsert "product" first])%list.
Proof.
  intros Hdb Hfind Hins Hempty.
  eexists _, _, _. split; [reflexivity|].
  unfold get_api_products, respond, list_products, try_except, bind.
  rewrite (get_documents_all w d) by (assumption || reflexivity).
  rewrite Hempty. simpl for_each. unfold bind.
  rewrite (create_document_fails "product" _ _ msg)
    by (unfold failure_of; simpl; rewrite Hdb; exact Hins).
  simpl. split; [reflexivity|]. split; [reflexivity|].
  simpl. rewrite <- app_assoc. reflexivity.
Qed.

(** X8: on a store that answers, a request with a limit of one or more on
    a collection that holds products, all of which can be sent, returns its
    first [limit] Documents and no more, after one query and no
    insertion. *)
Theorem limit_is_kept_when_products_exist (n : Z) w d :
  db w = Some d ->
  faults d OpFind = None ->
  (1 <= n)%Z ->
  documents_of "product" d <> [] ->
  Forall sendable (documents_of "product" d) ->
  exists shown,
    get_api_products repr_of (Some n) w
    = (Ok (items_of repr_of shown),
       record_call (CallQuery "product" (Some ∅) (Some n)) w)
    /\ shown = take (Z.to_nat n) (documents_of "product" d)
    /\ (Z.of_nat (length shown) <= n)%Z
    /\ shown <> [].
Proof.
  intros Hdb Hfind Hn Hsome Hsend.
  assert (take (Z.to_nat n) (documents_of "product" d) <> []) as Hshown.
  { destruct (documents_of "product" d) as [|p ps]; [congruence|].
    destruct (Z.to_nat n) eqn:Hz; [lia|discriminate]. }
  exists (take (Z.to_nat n) (documents_of "product" d)).
  split; [|split; [reflexivity|split; [rewrite length_take; lia|exact Hshown]]].
  apply respond_returned.
  - exact (list_products_reads repr_of (Some n) w d Hdb Hfind Hshown).
  - apply json_compliant_listing, (Forall_cap _ (Some n)), Hsend.
Qed.

(** X9: cleaning a cleaned Document changes nothing: an identifier that is
    a text already is kept as it is. *)
Theorem clean_is_idempotent (p : dict) :
  clean repr_of (clean repr_of p) = clean repr_of p.
Proof.
  unfold clean. rewrite lookup_insert_eq. simpl.
  apply insert_insert_eq.
Qed.

End ListingPaths.

(** *** Creating, then listing *)

Section CreateThenList.

Variable repr_of : value -> string.

Implicit Types (w : world) (d : database).

Lemma product_dump_compliant (p : ProductIn.t) :
  finite (ProductIn.price p) = true ->
  json_compliant (VDict (ProductIn.dump p)) = true.
Proof.
  intros Hfinite. apply json_compliant_dict. unfold ProductIn.dump. simpl.
  repeat (apply map_Forall_insert_2;
          [first [exact Hfinite
                 |reflexivity
                 |destruct (ProductIn.description p); reflexivity
                 |destruct (ProductIn.image p); reflexivity]|]).
  apply map_Forall_empty.
Qed.

(** X10: a product with a finite price created through
    [POST /api/products] is the last item of the next unlimited listing,
    when the Documents stored before can be sent: its ["_id"] there is the
    identifier the creation returned, its other fields are the dump of the
    model, the Documents stored before come first, and the listing does not
    seed, even if the collection was empty before the creation. *)
Theorem created_product_is_listed (b : ProductIn.body) (p : ProductIn.t) w d :
  ProductIn.validate b = inr p ->
  finite (ProductIn.price p) = true ->
  db w = Some d ->
  faults d OpInsertOne = None ->
  faults d OpFind = None ->
  Forall sendable (documents_of "product" d) ->
  exists identifier w1 w2 created,
    post_api_products b w = (Ok {[ "id" := VStr identifier ]}, w1)
    /\ get_api_products repr_of None w1
       = (Ok (items_of repr_of (documents_of "product" d ++ [created])%list),
          w2)
    /\ clean repr_of created !! "_id" = Some (VStr identifier)
    /\ delete "_id" created = ProductIn.dump p
    /\ calls w2
       = (calls w ++ [CallInsert "product" (ProductIn.dump p);
                      CallQuery "product" (Some ∅) None])%list.
Proof.
  intros Hvalid Hfinite Hdb Hins Hfind Hsend.
  exists (oid_text (next_id d)).
  eexists _, _, (<["_id" := VObjectId (next_id d)]> (ProductIn.dump p)).
  split.
  { unfold post_api_products, route. rewrite Hvalid.
    apply respond_returned; [|rewrite json_compliant_singleton; reflexivity].
    unfold create_product, try_except, bind.
    change (@create_document ProductIn.t _ "product" p w)
      with (create_document "product" (ProductIn.dump p) w).
    rewrite (create_document_dict w d) by assumption. reflexivity. }
  split.
  { apply respond_returned.
    - erewrite list_products_reads; [|reflexivity|exact Hfind|].
      + simpl. rewrite documents_of_insert_one. reflexivity.
      + simpl. rewrite documents_of_insert_one.
        destruct (documents_of "product" d); discriminate.
    - apply json_compliant_listing, Forall_app. split; [exact Hsend|].
      repeat constructor.
      rewrite delete_insert_eq, delete_id by reflexivity.
      apply product_dump_compliant, Hfinite. }
  split; [unfold clean; rewrite !lookup_insert_eq; reflexivity|].
  split; [rewrite delete_insert_eq; apply delete_id; reflexivity|].
  simpl. rewrite <- app_assoc. reflexivity.
Qed.

End CreateThenList.

(** *** Insertions that fail *)

Section FailedInsertion.

Implicit Types (w : world).

(** X11: when the insertion fails, for want of a store or in the engine,
    [POST /api/products] and [POST /api/orders] answer with a 500 whose
    detail is the message of the error; the gateway was called once, with
    the dump of the model, and the store holds what it held. *)
Theorem failed_insertion_is_a_server_error
    (pb : ProductIn.body) (p : ProductIn.t)
    (ob : OrderIn.body) (o : OrderIn.t) w msg :
  ProductIn.validate pb = inr p ->
  OrderIn.validate ob = inr o ->
  failure_of OpInsertOne w = Some msg ->
  post_api_products pb w
  = (Error 500 msg, record_call (CallInsert "product" (ProductIn.dump p)) w)
  /\ post_api_orders ob w
     = (Error 500 msg, record_call (CallInsert "order" (OrderIn.dump o)) w).
Proof.
  intros Hp Ho Hfail. split.
  - unfold post_api_products, route. rewrite Hp.
    unfold respond, create_product, try_except, bind.
    change (@create_document ProductIn.t _ "product" p w)
      with (create_document "product" (ProductIn.dump p) w).
    rewrite (create_document_fails "product" _ _ msg Hfail). reflexivity.
  - unfold post_api_orders, route. rewrite Ho.
    unfold respond, create_order, try_except, bind.
    change (model_dump o) with (OrderIn.dump o).
    rewrite (create_document_fails "order" _ _ msg Hfail). reflexivity.
Qed.

End FailedInsertion.

(** *** Validation of the request models *)

Section Validation.

Implicit Types (w : world).

Lemma ap_rejected_l {A B} (f : validation (A -> B)) (x : validation A) :
  rejected f -> rejected (f <*> x).
Proof.
  intros (e & es & ->). destruct x as [es'|a]; simpl; unfold rejected; eauto.
Qed.

Lemma ap_rejected_r {A B} (f : validation (A -> B)) (x : validation A) :
  rejected x -> rejected (f <*> x).
Proof.
  intros (e & es & ->). destruct f as [[|e' es']|g]; simpl; unfold rejected;
    eauto.
Qed.

Lemma item_out_of_range_rejected (at_ : list string) (ib : OrderItem.body) :
  item_out_of_range ib -> rejected (OrderItem.validate at_ ib).
Proof.
  unfold OrderItem.validate.
  intros [(q & Hq & Hlt)|(f & Hf & Hlt)].
  - apply ap_rejected_l, ap_rejected_r. rewrite Hq. simpl.
    destruct (1 <=? q)%Z eqn:Hle; [apply Z.leb_le in Hle; lia|].
    unfold rejected; eauto.
  - apply ap_rejected_r. rewrite Hf. simpl.
    rewrite (float_lt_zero_not_ge f Hlt). unfold rejected; eauto.
Qed.

Lemma each_rejected (at_ : list string) (from : nat)
    (bs : list OrderItem.body) (ib : OrderItem.body) :
  In ib bs -> item_out_of_range ib ->
  rejected (each OrderItem.validate at_ from bs).
Proof.
  intros Hin Hbad. revert from.
  induction bs as [|b rest IH]; intros from; [destruct Hin|].
  cbn [each]. destruct Hin as [->|Hin].
  - apply ap_rejected_l, ap_rejected_r, item_out_of_range_rejected, Hbad.
  - apply ap_rejected_r, IH, Hin.
Qed.

Lemma validate_item_inr (at_ : list string) (ib : OrderItem.body)
    (i : OrderItem.t) :
  OrderItem.validate at_ ib = inr i -> item_in_range i.
Proof.
  destruct ib as [pid t q pr]. unfold OrderItem.validate. simpl.
  destruct pid as [pid|], t as [t|], q as [q|], pr as [pr|]; simpl;
    try destruct (1 <=? q)%Z eqn:Hq; simpl;
    try destruct (float_ge pr (float_of_Z 0)) eqn:Hp; simpl;
    try discriminate.
  intros Hi; injection Hi as <-. split; simpl; [apply Z.leb_le, Hq|exact Hp].
Qed.

Lemma each_inr (at_ : list string) (from : nat) (bs : list OrderItem.body)
    (items : list OrderItem.t) :
  each OrderItem.validate at_ from bs = inr items ->
  Forall item_in_range items.
Proof.
  revert from items. induction bs as [|b rest IH]; intros from items; simpl.
  - intros Hnil; injection Hnil as <-. constructor.
  - destruct (OrderItem.validate (at_ ++ [pretty from]) b) as [es|i] eqn:Hi;
      destruct (each OrderItem.validate at_ (S from) rest) as [es'|tl] eqn:Hr;
      simpl; try discriminate.
    intros Hcons; injection Hcons as <-.
    constructor; [exact (validate_item_inr _ _ _ Hi)|exact (IH _ _ Hr)].
Qed.

Lemma validate_order_inr (b : OrderIn.body) (o : OrderIn.t) :
  OrderIn.validate b = inr o ->
  Forall item_in_range (OrderIn.items o)
  /\ float_ge (OrderIn.total o) (float_of_Z 0) = true.
Proof.
  destruct b as [its tot cust note]. unfold OrderIn.validate. simpl.
  destruct its as [bs|]; simpl.
  - destruct (each OrderItem.validate ["items"] 0 bs) as [es|items] eqn:Hit;
      destruct tot as [tot|]; simpl;
      try destruct (float_ge tot (float_of_Z 0)) eqn:Hge; simpl;
      destruct cust as [[[n|] [m|]]|]; simpl; try discriminate.
    intros Ho; injection Ho as <-. simpl.
    split; [exact (each_inr _ _ _ _ Hit)|exact Hge].
  - destruct tot as [tot|]; simpl;
      try destruct (float_ge tot (float_of_Z 0)); simpl;
      destruct cust as [[[n|] [m|]]|]; simpl; discriminate.
Qed.

(** The inputs that the errors show. *)

Lemma ap_echoes_ok {A B} (f : validation (A -> B)) (x : validation A) :
  echoes_ok f -> echoes_ok x -> echoes_ok (f <*> x).
Proof.
  destruct f as [es|g], x as [es'|a]; simpl; trivial.
  intros Hes Hes'. rewrite forallb_app, Hes, Hes'. reflexivity.
Qed.

Lemma missing_echoes_ok {A} at_ enclosing :
  json_compliant enclosing = true ->
  @echoes_ok A (inl [mk_error at_ Missing enclosing]).
Proof. intros Henc. simpl. rewrite Henc. reflexivity. Qed.

Lemma required_echoes_ok {A} at_ field enclosing (o : option A) :
  json_compliant enclosing = true ->
  echoes_ok (required at_ field enclosing o).
Proof. intros Henc. destruct o; simpl; [trivial|rewrite Henc; reflexivity]. Qed.

Lemma float_field_echoes_ok bound at_ field enclosing (o : option float) :
  json_compliant enclosing = true ->
  match o with Some f => finite f | None => true end = true ->
  echoes_ok (float_field_ge bound at_ field enclosing o).
Proof.
  intros Henc Hfin. destruct o as [f|]; simpl.
  - destruct (float_ge f bound); simpl; [trivial|rewrite Hfin; reflexivity].
  - rewrite Henc. reflexivity.
Qed.

Lemma int_field_echoes_ok bound at_ field enclosing (o : option Z) :
  json_compliant enclosing = true ->
  echoes_ok (int_field_ge bound at_ field enclosing o).
Proof.
  intros Henc. destruct o as [z|]; simpl.
  - destruct (bound <=? z)%Z; simpl; trivial.
  - rewrite Henc. reflexivity.
Qed.

Lemma echo_compliant (l : list (string * value)) :
  Forall (fun kv => json_compliant (snd kv) = true) l ->
  json_compliant (VDict (list_to_map l)) = true.
Proof.
  intros Hall. apply json_compliant_dict.
  induction Hall as [|[k v] l Hv _ IH]; simpl.
  - apply map_Forall_empty.
  - apply map_Forall_insert_2; assumption.
Qed.

Lemma present_compliant {A} field (f : A -> value) (o : option A) :
  match o with Some a => json_compliant (f a) | None => true end = true ->
  Forall (fun kv => json_compliant (snd kv) = true) (present field f o).
Proof. destruct o; simpl; intros H; repeat constructor; exact H. Qed.

Lemma item_echo_compliant (ib : OrderItem.body) :
  item_can_be_echoed ib = true -> json_compliant (OrderItem.echo ib) = true.
Proof.
  intros Hfin. unfold OrderItem.echo. apply echo_compliant.
  rewrite !Forall_app. repeat split; apply present_compliant;
    first [exact Hfin|destruct ib as [[?|] [?|] [?|] ?]; reflexivity].
Qed.

Lemma customer_echo_compliant (cb : CustomerInfo.body) :
  json_compliant (CustomerInfo.echo cb) = true.
Proof.
  unfold CustomerInfo.echo. apply echo_compliant.
  rewrite !Forall_app. repeat split; apply present_compliant;
    destruct cb as [[?|] [?|]]; reflexivity.
Qed.

Lemma item_echoes_compliant (bs : list OrderItem.body) :
  forallb item_can_be_echoed bs = true ->
  json_compliant (VList (map OrderItem.echo bs)) = true.
Proof.
  induction bs as [|ib bs IH]; [reflexivity|].
  cbn [forallb]. intros [Hib Hbs]%andb_true_iff.
  change (json_compliant (OrderItem.echo ib)
          && json_compliant (VList (map OrderItem.echo bs)) = true).
  rewrite (item_echo_compliant ib Hib), (IH Hbs). reflexivity.
Qed.

Lemma order_echo_compliant (b : OrderIn.body) :
  order_can_be_echoed b = true -> json_compliant (OrderIn.echo b) = true.
Proof.
  unfold order_can_be_echoed. intros [Htotal Hitems]%andb_true_iff.
  unfold OrderIn.echo. apply echo_compliant.
  rewrite !Forall_app. repeat split; apply present_compliant.
  - destruct (OrderIn.body_items b) as [bs|]; [|reflexivity].
    apply item_echoes_compliant, Hitems.
  - exact Htotal.
  - destruct (OrderIn.body_customer b) as [cb|]; [|reflexivity].
    apply customer_echo_compliant.
  - destruct (OrderIn.body_note b); reflexivity.
Qed.

Lemma item_validate_echoes_ok at_ (ib : OrderItem.body) :
  item_can_be_echoed ib = true -> echoes_ok (OrderItem.validate at_ ib).
Proof.
  intros Hfin. pose proof (item_echo_compliant ib Hfin) as Hecho.
  unfold OrderItem.validate.
  repeat apply ap_echoes_ok; try exact I.
  - apply required_echoes_ok, Hecho.
  - apply required_echoes_ok, Hecho.
  - apply int_field_echoes_ok, Hecho.
  - apply float_field_echoes_ok; [exact Hecho|exact Hfin].
Qed.

Lemma each_echoes_ok at_ (from : nat) (bs : list OrderItem.body) :
  forallb item_can_be_echoed bs = true ->
  echoes_ok (each OrderItem.validate at_ from bs).
Proof.
  revert from. induction bs as [|ib bs IH]; intros from; [intros _; exact I|].
  cbn [forallb each]. intros [Hib Hbs]%andb_true_iff.
  apply ap_echoes_ok;
    [apply ap_echoes_ok; [exact I|apply item_validate_echoes_ok, Hib]
    |apply IH, Hbs].
Qed.

Lemma customer_validate_echoes_ok at_ (cb : CustomerInfo.body) :
  echoes_ok (CustomerInfo.validate at_ cb).
Proof.
  unfold CustomerInfo.validate.
  repeat apply ap_echoes_ok; try exact I;
    apply required_echoes_ok, customer_echo_compliant.
Qed.

Lemma order_validate_echoes_ok (b : OrderIn.body) :
  order_can_be_echoed b = true -> echoes_ok (OrderIn.validate b).
Proof.
  intros Hfin. pose proof (order_echo_compliant b Hfin) as Hecho.
  apply andb_true_iff in Hfin as [Htotal Hitems].
  unfold OrderIn.validate.
  apply ap_echoes_ok; [apply ap_echoes_ok; [apply ap_echoes_ok;
    [apply ap_echoes_ok; [exact I|]|]|]|exact I].
  - unfold nested. destruct (OrderIn.body_items b) as [bs|].
    + apply each_echoes_ok, Hitems.
    + apply missing_echoes_ok, Hecho.
  - apply float_field_echoes_ok; [exact Hecho|exact Htotal].
  - unfold nested. destruct (OrderIn.body_customer b) as [cb|].
    + apply customer_validate_echoes_ok.
    + apply missing_echoes_ok, Hecho.
Qed.

(** X12: an order body without items, total or customer, with a total
    below zero, or with an item whose quantity is below one or whose price
    is below zero, is answered with the client error of a failed
    validation when its floats are finite, so that the errors can show
    them; the world is left as it was. *)
Theorem invalid_order_never_reaches_the_store (b : OrderIn.body) w :
  order_can_be_echoed b = true ->
  (OrderIn.body_items b = None
   \/ OrderIn.body_total b = None
   \/ OrderIn.body_customer b = None
   \/ (exists t, OrderIn.body_total b = Some t
                 /\ float_lt t (float_of_Z 0) = true)
   \/ (exists bs ib, OrderIn.body_items b = Some bs
                     /\ In ib bs /\ item_out_of_range ib)) ->
  exists errors,
    post_api_orders b w = (Unprocessable errors, w) /\ errors <> [].
Proof.
  intros Hfin Hbad. unfold post_api_orders, route.
  pose proof (order_validate_echoes_ok b Hfin) as Hecho.
  assert (rejected (OrderIn.validate b)) as (e & es & Hv).
  { unfold OrderIn.validate.
    destruct Hbad as [H|[H|[H|[(t & H & Hlt)|(bs & ib & H & Hin & Hib)]]]];
      rewrite H.
    - apply ap_rejected_l, ap_rejected_l, ap_rejected_l, ap_rejected_r.
      unfold rejected; simpl; eauto.
    - apply ap_rejected_l, ap_rejected_l, ap_rejected_r.
      unfold rejected; simpl; eauto.
    - apply ap_rejected_l, ap_rejected_r. unfold rejected; simpl; eauto.
    - apply ap_rejected_l, ap_rejected_l, ap_rejected_r. simpl.
      rewrite (float_lt_zero_not_ge t Hlt). unfold rejected; eauto.
    - apply ap_rejected_l, ap_rejected_l, ap_rejected_l, ap_rejected_r.
      simpl. exact (each_rejected _ _ _ _ Hin Hib). }
  rewrite Hv in Hecho |- *. unfold echoes_ok in Hecho.
  unfold reject. rewrite Hecho.
  exists (e :: es). split; [reflexivity|discriminate].
Qed.

(** X13: an order that reaches the gateway went through validation: all
    its items have a quantity of one or more and a price of zero or more,
    its total is zero or more, and what is handed to the gateway is its
    dump, in one call to the order collection. *)
Theorem stored_order_is_in_range (b : OrderIn.body) w r w' :
  post_api_orders b w = (r, w') ->
  calls w' <> calls w ->
  exists o,
    OrderIn.validate b = inr o
    /\ Forall item_in_range (OrderIn.items o)
    /\ float_ge (OrderIn.total o) (float_of_Z 0) = true
    /\ calls w' = (calls w ++ [CallInsert "order" (OrderIn.dump o)])%list.
Proof.
  unfold post_api_orders, route.
  destruct (OrderIn.validate b) as [errors|o] eqn:Hv.
  - intros Hrun; injection Hrun as <- <-. congruence.
  - intros Hrun _. exists o.
    destruct (validate_order_inr b o Hv) as [Hitems Htotal].
    split; [reflexivity|]. split; [exact Hitems|]. split; [exact Htotal|].
    assert (w' = snd (create_order o w)) as ->
      by (rewrite <- respond_world, Hrun; reflexivity).
    unfold create_order, try_except, bind.
    change (model_dump o) with (OrderIn.dump o).
    unfold create_document. simpl.
    destruct (db w) as [d|]; [destruct (faults d OpInsertOne)|]; reflexivity.
Qed.

(** X14: [ProductIn] accepts a body exactly when title, price and category
    are there and the price is zero or more; the model then has the fields
    of the body, with [in_stock] true when the body does not say. *)
Theorem product_is_accepted_iff (b : ProductIn.body) (p : ProductIn.t) :
  ProductIn.validate b = inr p
  <-> (ProductIn.body_title b = Some (ProductIn.title p)
       /\ ProductIn.body_price b = Some (ProductIn.price p)
       /\ float_ge (ProductIn.price p) (float_of_Z 0) = true
       /\ ProductIn.body_category b = Some (ProductIn.category p)
       /\ ProductIn.description p = ProductIn.body_description b
       /\ ProductIn.in_stock p = default true (ProductIn.body_in_stock b)
       /\ ProductIn.image p = ProductIn.body_image b).
Proof.
  destruct b as [t de pr c i im]. unfold ProductIn.validate. simpl. split.
  - destruct t as [t|], pr as [pr|], c as [c|]; simpl;
      try destruct (float_ge pr (float_of_Z 0)) eqn:Hge; simpl;
      try discriminate.
    intros Hp; injection Hp as <-. simpl. auto 10.
  - destruct p as [t' de' pr' c' i' im']. simpl.
    intros (-> & -> & Hge & -> & -> & -> & ->). simpl.
    rewrite Hge. reflexivity.
Qed.

(** X15: the body that carries an order validates back to that order
    exactly when every item has a quantity of one or more and a price of
    zero or more and the total is zero or more; the item list may be
    empty. *)
Theorem order_body_validates_iff (o : OrderIn.t) :
  OrderIn.validate (order_body o) = inr o
  <-> (Forall item_in_range (OrderIn.items o)
       /\ float_ge (OrderIn.total o) (float_of_Z 0) = true).
Proof.
  split.
  - apply validate_order_inr.
  - intros [Hitems Htotal]. apply validate_order_body; assumption.
Qed.

End Validation.

(** *** The further properties at concrete requests *)

Lemma failed_query_is_a_server_error_witness :
  failure_of OpFind (failing OpFind timeout_message) = Some timeout_message
  /\ get_api_products plain_repr (Some 3%Z) (failing OpFind timeout_message)
     = (Error 500 timeout_message,
        record_call (CallQuery "product" (Some ∅) (Some 3%Z))
          (failing OpFind timeout_message)).
Proof.
  split; [reflexivity|].
  exact (failed_query_is_a_server_error plain_repr (Some 3%Z)
           (failing OpFind timeout_message) timeout_message eq_refl).
Defined.

Lemma failed_seeding_is_a_server_error_witness :
  cap None (documents_of "product" (failing_store OpInsertOne timeout_message))
  = []
  /\ exists first rest w',
       samples = first :: rest
       /\ get_api_products plain_repr None (failing OpInsertOne timeout_message)
          = (Error 500 timeout_message, w')
       /\ db w' = db (failing OpInsertOne timeout_message)
       /\ calls w'
          = (calls (failing OpInsertOne timeout_message)
             ++ [CallQuery "product" (Some ∅) None;
                 CallInsert "product" first])%list.
Proof.
  split; [reflexivity|].
  exact (failed_seeding_is_a_server_error plain_repr None
           (failing OpInsertOne timeout_message)
           (failing_store OpInsertOne timeout_message) timeout_message
           eq_refl eq_refl eq_refl eq_refl).
Defined.

Lemma limit_is_kept_when_products_exist_witness :
  (1 <= 2)%Z
  /\ Forall sendable (stamp 0 samples)
  /\ exists shown,
       get_api_products plain_repr (Some 2%Z) stocked
       = (Ok (items_of plain_repr shown),
          record_call (CallQuery "product" (Some ∅) (Some 2%Z)) stocked)
       /\ shown = take (Z.to_nat 2) (stamp 0 samples)
       /\ (Z.of_nat (length shown) <= 2)%Z
       /\ shown <> [].
Proof.
  assert (1 <= 2)%Z as Hn by discriminate.
  assert (Forall sendable (stamp 0 samples)) as Hsend by repeat constructor.
  split; [exact Hn|]. split; [exact Hsend|].
  refine (limit_is_kept_when_products_exist plain_repr 2 stocked _
            eq_refl eq_refl Hn _ Hsend).
  discriminate.
Defined.

Lemma created_product_is_listed_witness :
  ProductIn.validate untitled = inr untitled_product
  /\ finite (ProductIn.price untitled_product) = true
  /\ Forall sendable (documents_of "product" empty_store)
  /\ exists identifier w1 w2 created,
       post_api_products untitled fresh_deployment
       = (Ok {[ "id" := VStr identifier ]}, w1)
       /\ get_api_products plain_repr None w1
          = (Ok (items_of plain_repr
                   (documents_of "product" empty_store ++ [created])%list),
             w2)
       /\ clean plain_repr created !! "_id" = Some (VStr identifier)
       /\ delete "_id" created = ProductIn.dump untitled_product
       /\ calls w2
          = (calls fresh_deployment
             ++ [CallInsert "product" (ProductIn.dump untitled_product);
                 CallQuery "product" (Some ∅) None])%list.
Proof.
  assert (Forall sendable (documents_of "product" empty_store)) as Hsend
    by constructor.
  split; [reflexivity|]. split; [reflexivity|]. split; [exact Hsend|].
  exact (created_product_is_listed plain_repr untitled untitled_product
           fresh_deployment empty_store eq_refl eq_refl eq_refl eq_refl
           eq_refl Hsend).
Defined.

Lemma failed_insertion_is_a_server_error_witness :
  failure_of OpInsertOne unconfigured = Some "Database not available"
  /\ post_api_products untitled unconfigured
     = (Error 500 "Database not available",
        record_call
          (CallInsert "product" (ProductIn.dump untitled_product))
          unconfigured)
  /\ post_api_orders (order_body roses_order) unconfigured
     = (Error 500 "Database not available",
        record_call (CallInsert "order" (OrderIn.dump roses_order))
          unconfigured).
Proof.
  split; [reflexivity|].
  exact (failed_insertion_is_a_server_error untitled untitled_product
           (order_body roses_order) roses_order unconfigured
           "Database not available" eq_refl eq_refl eq_refl).
Defined.

Lemma invalid_order_never_reaches_the_store_witness :
  order_can_be_echoed empty_handed = true
  /\ exists errors,
       post_api_orders empty_handed stocked = (Unprocessable errors, stocked)
       /\ errors <> [].
Proof.
  split; [reflexivity|].
  apply (invalid_order_never_reaches_the_store empty_handed stocked);
    [reflexivity|].
  right; right; right; right.
  eexists _, _. split; [reflexivity|]. split; [left; reflexivity|].
  left. exists 0%Z. split; [reflexivity|reflexivity].
Defined.

Lemma stored_order_is_in_range_witness :
  calls (snd (post_api_orders (order_body roses_order) fresh_deployment))
  <> calls fresh_deployment
  /\ exists o,
       OrderIn.validate (order_body roses_order) = inr o
       /\ Forall item_in_range (OrderIn.items o)
       /\ float_ge (OrderIn.total o) (float_of_Z 0) = true
       /\ calls (snd (post_api_orders (order_body roses_order)
                        fresh_deployment))
          = (calls fresh_deployment
             ++ [CallInsert "order" (OrderIn.dump o)])%list.
Proof.
  assert (calls (snd (post_api_orders (order_body roses_order)
                        fresh_deployment))
          <> calls fresh_deployment) as Hcalled
    by (vm_compute; discriminate).
  split; [exact Hcalled|].
  apply (stored_order_is_in_range (order_body roses_order) fresh_deployment
           (fst (post_api_orders (order_body roses_order) fresh_deployment))
           (snd (post_api_orders (order_body roses_order) fresh_deployment)));
    [apply surjective_pairing|exact Hcalled].
Defined.
